(** * Job matching core of ai-job-agent: scorer, vector store, match storage

    A shallow embedding of
    - [src/matcher/enhanced_matcher.py] (class [EnhancedJobMatcher]) and
    - [src/embeddings/vector_store.py] (class [FaissStore]),
    with the columns of [src/models.py] they read and write.

    Conventions of the embedding.
    - Python [float] and [int] values that take part in a score are exact
      rationals ([Q]); rounding of IEEE doubles and NaN are not represented.
    - A nullable column is an [option]; Python truthiness ([if not x], [x or y])
      is written out: [None], [0], the empty string and the empty list are
      falsy.
    - A [dict] read with [.get(key, default)] is a [gmap string Q]; a Python
      [set] of strings is a [gset string].
    - [str.lower()] is the ASCII lower-casing; [a in b] on strings is the
      substring test.
    - [list(s)] of a set follows the iteration order of the process that
      runs the matcher; the order is a field of the matcher.
    - The files a store reads and writes are a [gmap] from paths to
      contents; the directory tree answers [os.makedirs].
    - A call that may raise returns [exc]. *)

From Stdlib Require Import QArith Qminmax ZArith List String Ascii Lia Lqa.
From stdpp Require Import gmap strings list fin_maps sorting pretty.

#[local] Set Warnings "-clear-no-such-hyp".

Local Open Scope string_scope.
Local Open Scope list_scope.

(** ** Python values *)

Module Py.

(** Outcome of a call: a value, or a raised exception (by class name). *)
Inductive exc (A : Type) : Type :=
| Return (a : A)
| Raise (e : string).
Arguments Return {A} a.
Arguments Raise {A} e.

Definition bind {A B} (m : exc A) (k : A → exc B) : exc B :=
  match m with
  | Return a => k a
  | Raise e => Raise e
  end.

(** [try: body except Exception: handler] *)
Definition try_except {A} (body : exc A) (handler : A) : A :=
  match body with
  | Return a => a
  | Raise _ => handler
  end.

(** Truthiness of a nullable integer column: [None] and [0] are falsy. *)
Definition truthy_int (o : option Z) : option Z :=
  match o with
  | Some 0%Z => None
  | Some z => Some z
  | None => None
  end.

(** Truthiness of a nullable float column. *)
Definition truthy_float (o : option Q) : option Q :=
  match o with
  | Some q => if Qeq_bool q 0 then None else Some q
  | None => None
  end.

(** Truthiness of a nullable string column: [None] and [""] are falsy. *)
Definition truthy_str (o : option string) : option string :=
  match o with
  | Some "" => None
  | Some s => Some s
  | None => None
  end.

(** [x or []] for a nullable JSON list. *)
Definition or_empty {A} (o : option (list A)) : list A := default [] o.

(** [x or ''] for a nullable string. *)
Definition or_blank (o : option string) : string := default "" o.

Definition lower_ascii (c : ascii) : ascii :=
  let n := nat_of_ascii c in
  if (65 <=? n)%nat && (n <=? 90)%nat then ascii_of_nat (n + 32) else c.

(** [s.lower()] *)
Fixpoint lower (s : string) : string :=
  match s with
  | EmptyString => EmptyString
  | String c s' => String (lower_ascii c) (lower s')
  end.

(** [needle in haystack] on strings *)
Fixpoint contains (needle haystack : string) : bool :=
  String.prefix needle haystack ||
  match haystack with
  | EmptyString => false
  | String _ rest => contains needle rest
  end.

(** [sep.join(parts)] *)
Definition join (sep : string) (parts : list string) : string :=
  String.concat sep parts.

(** [x in xs] on a list of strings *)
Definition mem (x : string) (xs : list string) : bool :=
  bool_decide (x ∈ xs).

(** [xs[:k]] with Python's reading of a negative bound. *)
Definition slice_to {A} (xs : list A) (k : Z) : list A :=
  if (0 <=? k)%Z then take (Z.to_nat k) xs
  else take (length xs - Z.to_nat (- k)) xs.

(** [int / int] and [len(a) / len(b)]: true division. *)
Definition of_int (z : Z) : Q := inject_Z z.
Definition of_len (n : nat) : Q := inject_Z (Z.of_nat n).

(** [a >= b] and friends, as booleans. *)
Definition ge (a b : Q) : bool := Qle_bool b a.
Definition le (a b : Q) : bool := Qle_bool a b.
Definition gt (a b : Q) : bool := negb (Qle_bool a b).
Definition lt (a b : Q) : bool := negb (Qle_bool b a).

(** [list(s)] for a set of strings.  The interpreter iterates a set in an
    order that follows the string hashes, and these are salted anew for
    every process: a process comes with some enumeration of each set, every
    member once.  The enumeration is given by the members alone; the sets
    listed below are built from the same columns in the same way whenever
    two of them are compared. *)
Record set_order : Type := mk_set_order {
  list_of : gset string → list string;
  list_of_perm : ∀ s, list_of s ≡ₚ elements s
}.

End Py.

#[global] Instance exc_ret : MRet Py.exc := @Py.Return.
#[global] Instance exc_bind : MBind Py.exc := λ A B k m, Py.bind m k.

(** ** Rows of [src/models.py] (the columns the matcher reads and writes) *)

Module Company.
Record t : Type := mk {
  company_size : option string;
  glassdoor_rating : option Q
}.
End Company.

Module Job.
(** [company] is the ORM relationship, already resolved. *)
Record t : Type := mk {
  id : Z;
  title : option string;
  location : option string;
  description : option string;
  experience_level : option string;
  salary_min : option Z;
  salary_max : option Z;
  remote_option : option string;
  required_skills : option (list string);
  preferred_skills : option (list string);
  is_active : option bool;
  company : option Company.t
}.
End Job.

Module UserProfile.
Record t : Type := mk {
  id : Z;
  resume_text : option string;
  skills : option (list string);
  experience_years : option Z;
  current_title : option string;
  preferred_locations : option (list string);
  preferred_remote : option string;
  preferred_company_size : option (list string);
  preferred_salary_min : option Z;
  preferred_salary_max : option Z
}.
End UserProfile.

Module Match.
(** The surrogate key [id] and the wall-clock default [created_at] are
    assigned outside the matcher and are not represented. *)
Record t : Type := mk {
  user_id : Z;
  job_id : Z;
  overall_score : Q;
  semantic_score : Q;
  skill_match_score : Q;
  experience_match_score : Q;
  location_match_score : Q;
  salary_match_score : Q;
  company_match_score : Q;
  matched_skills : list string;
  missing_skills : list string;
  reasons : list string;
  is_viewed : bool;
  is_saved : bool;
  user_rating : option Z
}.
End Match.

(** The dictionary returned by [_calculate_match_score]. *)
Module MatchData.
Record t : Type := mk {
  job_id : Z;
  job : Job.t;
  overall_score : Q;
  semantic_score : Q;
  skill_match_score : Q;
  experience_match_score : Q;
  location_match_score : Q;
  salary_match_score : Q;
  company_match_score : Q;
  matched_skills : list string;
  missing_skills : list string;
  reasons : list string
}.
End MatchData.

(** The tables a session sees. *)
Module DB.
Record t : Type := mk {
  user_profiles : list UserProfile.t;
  jobs : list Job.t;
  matches : list Match.t
}.
End DB.

(** ** [src/matcher/enhanced_matcher.py] *)

Module EnhancedJobMatcher.

Local Open Scope Q_scope.

Definition vector : Type := list Q.

(** [self]: the encoder ([Encoder.encode], a list of texts to a list of
    vectors, may raise), and the two dictionaries read from the
    configuration; with it, the set iteration order of the process that
    holds the instance. *)
Record t : Type := mk {
  encoder : list string → Py.exc (list vector);
  weights : gmap string Q;
  thresholds : gmap string Q;
  set_order : Py.set_order
}.

(** [np.dot] on two 1-d arrays. *)
Definition np_dot (u v : vector) : Q :=
  foldr Qplus 0 (zip_with Qmult u v).

(** [xs[0]] *)
Definition first_item {A} (xs : list A) : Py.exc A :=
  match xs with
  | x :: _ => Py.Return x
  | [] => Py.Raise "IndexError"
  end.

Definition common_skills : list string :=
  [ "python"; "java"; "javascript"; "react"; "node.js"; "sql"; "aws"; "docker";
    "kubernetes"; "git"; "linux"; "mongodb"; "postgresql"; "redis"; "elasticsearch";
    "tensorflow"; "pytorch"; "machine learning"; "data science"; "api"; "rest";
    "graphql"; "microservices"; "agile"; "scrum"; "ci/cd"; "jenkins"; "terraform" ].

Definition _extract_skills_from_text (text : string) : gset string :=
  list_to_set (filter (λ skill, Py.contains skill text = true) common_skills).

(** The skill set of a job: required, preferred, and those found in the
    description. *)
Definition job_skill_set (job : Job.t) : gset string :=
  let job_skills : gset string := ∅ in
  let job_skills :=
    match Job.required_skills job with
    | Some (s :: l) => job_skills ∪ list_to_set (Py.lower <$> (s :: l))
    | _ => job_skills
    end in
  let job_skills :=
    match Job.preferred_skills job with
    | Some (s :: l) => job_skills ∪ list_to_set (Py.lower <$> (s :: l))
    | _ => job_skills
    end in
  match Py.truthy_str (Job.description job) with
  | Some description =>
      job_skills ∪ _extract_skills_from_text (Py.lower description)
  | None => job_skills
  end.

Definition user_skill_set (user : UserProfile.t) : gset string :=
  list_to_set (Py.lower <$> Py.or_empty (UserProfile.skills user)).

Definition _calculate_skill_match (self : t)
    (user : UserProfile.t) (job : Job.t)
  : Q * list string * list string :=
  let user_skills := user_skill_set user in
  let job_skills := job_skill_set job in
  if bool_decide (job_skills = ∅) then (0.5, [], [])
  else
    let matched_skills :=
      Py.list_of (set_order self) (user_skills ∩ job_skills) in
    let missing_skills :=
      Py.list_of (set_order self) (job_skills ∖ user_skills) in
    let skill_score :=
      if bool_decide (job_skills = ∅) then 0.5
      else Py.of_len (length matched_skills) / Py.of_len (size job_skills) in
    (skill_score, matched_skills, missing_skills).

Definition level_ranges : gmap string (Z * Z) :=
  list_to_map
    [ ("entry", (0, 2)%Z); ("junior", (1, 3)%Z); ("mid", (3, 6)%Z);
      ("senior", (5, 10)%Z); ("lead", (7, 15)%Z); ("principal", (10, 20)%Z) ].

Definition _calculate_experience_match (user : UserProfile.t) (job : Job.t) : Q :=
  match Py.truthy_int (UserProfile.experience_years user),
        Py.truthy_str (Job.experience_level job) with
  | Some user_exp, Some experience_level =>
      let job_range := default (0, 20)%Z (level_ranges !! experience_level) in
      if (job_range.1 <=? user_exp)%Z && (user_exp <=? job_range.2)%Z then 1.0
      else if (user_exp <? job_range.1)%Z then
        let gap := (job_range.1 - user_exp)%Z in
        Qmax 0.3 (1.0 - Py.of_int gap * 0.2)
      else
        let gap := (user_exp - job_range.2)%Z in
        Qmax 0.6 (1.0 - Py.of_int gap * 0.1)
  | _, _ => 0.7
  end.

Definition _calculate_location_match (user : UserProfile.t) (job : Job.t) : Q :=
  match UserProfile.preferred_locations user, Py.truthy_str (Job.location job) with
  | Some (p :: ps), Some location =>
      let job_location := Py.lower location in
      if existsb
           (λ pref_location,
              Py.contains (Py.lower pref_location) job_location
              || Py.contains job_location (Py.lower pref_location))
           (p :: ps)
      then 1.0
      else if from_option (λ r, Py.mem r ["remote"; "hybrid"]) false
                (Job.remote_option job)
              && from_option (λ r, Py.mem r ["remote"; "hybrid"; "flexible"]) false
                   (UserProfile.preferred_remote user)
      then 0.9
      else 0.4
  | _, _ => 0.8
  end.

Definition _calculate_salary_match (user : UserProfile.t) (job : Job.t) : Q :=
  match Py.truthy_int (UserProfile.preferred_salary_min user),
        Py.truthy_int (Job.salary_min job) with
  | Some preferred_salary_min, Some salary_min =>
      let user_min := Py.of_int preferred_salary_min in
      let user_max :=
        match Py.truthy_int (UserProfile.preferred_salary_max user) with
        | Some m => Py.of_int m
        | None => user_min * 1.5
        end in
      let job_min := Py.of_int salary_min in
      let job_max :=
        match Py.truthy_int (Job.salary_max job) with
        | Some m => Py.of_int m
        | None => job_min
        end in
      if Py.ge job_max user_min && Py.le job_min user_max then
        let overlap_start := Qmax user_min job_min in
        let overlap_end := Qmin user_max job_max in
        let overlap := overlap_end - overlap_start in
        let user_range := user_max - user_min in
        if Py.gt user_range 0 then Qmin 1.0 (overlap / user_range)
        else 1.0
      else if Py.lt job_max user_min then
        let gap := user_min - job_max in
        Qmax 0.2 (1.0 - gap / user_min)
      else 1.0
  | _, _ => 0.7
  end.

Definition _calculate_company_match (user : UserProfile.t) (job : Job.t) : Q :=
  match Job.company job with
  | None => 0.5
  | Some company =>
      let score := 0.5 in
      let score :=
        match UserProfile.preferred_company_size user,
              Py.truthy_str (Company.company_size company) with
        | Some (p :: ps), Some company_size =>
            if Py.mem company_size (p :: ps) then score + 0.3 else score
        | _, _ => score
        end in
      let score :=
        match Py.truthy_float (Company.glassdoor_rating company) with
        | Some glassdoor_rating =>
            let rating_score := glassdoor_rating / 5.0 in
            score + 0.2 * rating_score
        | None => score
        end in
      Qmin 1.0 score
  end.

Definition _generate_match_reasons (semantic_score skill_score exp_score : Q)
    (matched_skills : list string) (job : Job.t) : list string :=
  let reasons := [] in
  let reasons :=
    if Py.gt semantic_score 0.8 then
      reasons ++ ["Strong semantic match with your background"]
    else if Py.gt semantic_score 0.6 then
      reasons ++ ["Good alignment with your experience"]
    else reasons in
  let reasons :=
    if Py.gt skill_score 0.7 then
      reasons ++ ["Strong skill match: " +:+ Py.join ", " (take 3 matched_skills)]
    else if negb (bool_decide (matched_skills = [])) then
      reasons ++ ["Skill overlap: " +:+ Py.join ", " (take 2 matched_skills)]
    else reasons in
  let reasons :=
    if Py.gt exp_score 0.8 then reasons ++ ["Perfect experience level match"]
    else if Py.gt exp_score 0.6 then reasons ++ ["Good experience level fit"]
    else reasons in
  let reasons :=
    if bool_decide (Job.remote_option job = Some "remote") then
      reasons ++ ["Remote work available"]
    else if bool_decide (Job.remote_option job = Some "hybrid") then
      reasons ++ ["Hybrid work option"]
    else reasons in
  let reasons :=
    match Py.truthy_int (Job.salary_min job) with
    | Some salary_min =>
        if (100000 <? salary_min)%Z then reasons ++ ["Competitive salary range"]
        else reasons
    | None => reasons
    end in
  reasons.

(** The weighted sum of lines 176-183, as a function of the six sub-scores. *)
Definition weighted_overall_score (weights : gmap string Q)
    (semantic_score skill_match_score experience_match_score
     location_match_score salary_match_score company_match_score : Q) : Q :=
  default 0.3 (weights !! "semantic_score") * semantic_score +
  default 0.25 (weights !! "skill_match") * skill_match_score +
  default 0.2 (weights !! "experience_match") * experience_match_score +
  default 0.1 (weights !! "location_match") * location_match_score +
  default 0.1 (weights !! "salary_match") * salary_match_score +
  default 0.05 (weights !! "company_match") * company_match_score.

(** The text embedded for a profile and for a job (lines 210 and 213). *)
Definition user_text (user : UserProfile.t) : string :=
  Py.or_blank (UserProfile.current_title user) +:+ " " +:+
  Py.join " " (Py.or_empty (UserProfile.skills user)) +:+ " " +:+
  Py.or_blank (UserProfile.resume_text user).

Definition job_text (job : Job.t) : string :=
  Py.or_blank (Job.title job) +:+ " " +:+
  Py.or_blank (Job.description job).

Section WithNumpy.

(** [np.linalg.norm]: the Euclidean norm needs a square root, which [Q]
    does not have; it is a parameter of the embedding. *)
Variable np_linalg_norm : vector → Q.

Definition _calculate_semantic_score (self : t)
    (user : UserProfile.t) (job : Job.t) : Q :=
  Py.try_except
    (user_embedding ← encoder self [user_text user] ≫= first_item;
     job_embedding ← encoder self [job_text job] ≫= first_item;
     let similarity :=
       np_dot user_embedding job_embedding /
       (np_linalg_norm user_embedding * np_linalg_norm job_embedding) in
     mret (Qmax 0.0 (Qmin 1.0 similarity)))
    0.5.

Definition _calculate_match_score (self : t)
    (user : UserProfile.t) (job : Job.t) : MatchData.t :=
  let semantic_score := _calculate_semantic_score self user job in
  let '(skill_match_score, matched_skills, missing_skills) :=
    _calculate_skill_match self user job in
  let experience_match_score := _calculate_experience_match user job in
  let location_match_score := _calculate_location_match user job in
  let salary_match_score := _calculate_salary_match user job in
  let company_match_score := _calculate_company_match user job in
  let overall_score :=
    weighted_overall_score (weights self)
      semantic_score skill_match_score experience_match_score
      location_match_score salary_match_score company_match_score in
  let reasons :=
    _generate_match_reasons semantic_score skill_match_score
      experience_match_score matched_skills job in
  {| MatchData.job_id := Job.id job;
     MatchData.job := job;
     MatchData.overall_score := overall_score;
     MatchData.semantic_score := semantic_score;
     MatchData.skill_match_score := skill_match_score;
     MatchData.experience_match_score := experience_match_score;
     MatchData.location_match_score := location_match_score;
     MatchData.salary_match_score := salary_match_score;
     MatchData.company_match_score := company_match_score;
     MatchData.matched_skills := matched_skills;
     MatchData.missing_skills := missing_skills;
     MatchData.reasons := reasons |}.

(** [matches.sort(key=lambda x: x["overall_score"], reverse=True)]:
    a stable sort, largest score first; records with equal scores keep
    their order. *)
Fixpoint insert_by_score (x : MatchData.t) (l : list MatchData.t)
  : list MatchData.t :=
  match l with
  | [] => [x]
  | y :: l' =>
      if Py.ge (MatchData.overall_score x) (MatchData.overall_score y)
      then x :: y :: l'
      else y :: insert_by_score x l'
  end.

Definition sort_by_score_desc (l : list MatchData.t) : list MatchData.t :=
  foldr insert_by_score [] l.

(** The [Match(...)] row built from one dictionary; the three
    interaction columns take their declared defaults. *)
Definition match_row (user_id : Z) (match_data : MatchData.t) : Match.t :=
  {| Match.user_id := user_id;
     Match.job_id := MatchData.job_id match_data;
     Match.overall_score := MatchData.overall_score match_data;
     Match.semantic_score := MatchData.semantic_score match_data;
     Match.skill_match_score := MatchData.skill_match_score match_data;
     Match.experience_match_score := MatchData.experience_match_score match_data;
     Match.location_match_score := MatchData.location_match_score match_data;
     Match.salary_match_score := MatchData.salary_match_score match_data;
     Match.company_match_score := MatchData.company_match_score match_data;
     Match.matched_skills := MatchData.matched_skills match_data;
     Match.missing_skills := MatchData.missing_skills match_data;
     Match.reasons := MatchData.reasons match_data;
     Match.is_viewed := false;
     Match.is_saved := false;
     Match.user_rating := None |}.

(** Delete the user's rows, add one row per dictionary, commit. *)
Definition _store_matches (user_id : Z) (matches : list MatchData.t)
    (db : DB.t) : DB.t :=
  let kept :=
    filter (λ m, Match.user_id m ≠ user_id) (DB.matches db) in
  {| DB.user_profiles := DB.user_profiles db;
     DB.jobs := DB.jobs db;
     DB.matches := kept ++ (match_row user_id <$> matches) |}.

Definition match_user_to_jobs (self : t) (user_id : Z) (top_k : Z)
    (db : DB.t) : Py.exc (list MatchData.t) * DB.t :=
  match head (filter (λ u, UserProfile.id u = user_id) (DB.user_profiles db)) with
  | None => (Py.Return [], db)
  | Some user =>
      let jobs := filter (λ j, Job.is_active j = Some true) (DB.jobs db) in
      let matches :=
        filter
          (λ match_data,
             Py.ge (MatchData.overall_score match_data)
               (default 0.6 (thresholds self !! "minimum_match_score")) = true)
          (_calculate_match_score self user <$> jobs) in
      let matches := sort_by_score_desc matches in
      let db := _store_matches user_id (Py.slice_to matches top_k) db in
      (Py.Return (Py.slice_to matches top_k), db)
  end.

End WithNumpy.

End EnhancedJobMatcher.

(** ** [src/embeddings/vector_store.py] *)

(** The part of the faiss library the store calls: the exact inner-product
    index [IndexFlatIP], by its documented behaviour.  [add] and [search]
    check the dimension of their argument, [search] checks [k > 0]; a search
    returns, for every query row, exactly [k] distances and labels, best
    first, filled up with the label [-1] when fewer than [k] vectors are
    stored. *)
Module Faiss.

Local Open Scope Q_scope.

Definition vector : Type := list Q.

Record IndexFlatIP : Type := mk {
  d : nat;
  xb : list vector
}.

Definition ntotal (index : IndexFlatIP) : nat := length (xb index).

Definition has_dim (d : nat) (x : list vector) : bool :=
  forallb (λ row, (length row =? d)%nat) x.

Definition add (index : IndexFlatIP) (x : list vector) : Py.exc IndexFlatIP :=
  if has_dim (d index) x
  then Py.Return {| d := d index; xb := xb index ++ x |}
  else Py.Raise "AssertionError".

Definition inner_product (u v : vector) : Q :=
  foldr Qplus 0 (zip_with Qmult u v).

(** The largest single-precision float; its negation is the distance that
    comes with a missing result. *)
Definition FLT_MAX : Q := 340282346638528859811704183484516925440.

Fixpoint insert_desc (x : Q * Z) (l : list (Q * Z)) : list (Q * Z) :=
  match l with
  | [] => [x]
  | y :: l' =>
      if Py.ge x.1 y.1 then x :: y :: l' else y :: insert_desc x l'
  end.

Definition sort_desc (l : list (Q * Z)) : list (Q * Z) :=
  foldr insert_desc [] l.

(** Distances and labels of one query, over exact numbers: every product
    is finite and takes part in the ranking.  Among equal products the
    order chosen here is one of those the library may give; single-precision
    overflow, where the library leaves label [-1] for a product that is
    not finite, has no counterpart in this arithmetic. *)
Definition search_row (index : IndexFlatIP) (k : nat) (q : vector)
  : list (Q * Z) :=
  let scored := imap (λ i v, (inner_product q v, Z.of_nat i)) (xb index) in
  let best := take k (sort_desc scored) in
  best ++ replicate (k - length best) (- FLT_MAX, (-1)%Z).

(** [D, I = index.search(x, k)] *)
Definition search (index : IndexFlatIP) (x : list vector) (k : nat)
  : Py.exc (list (list Q) * list (list Z)) :=
  if negb (has_dim (d index) x) then Py.Raise "AssertionError"
  else if (k =? 0)%nat then Py.Raise "AssertionError"
  else
    let rows := search_row index k <$> x in
    Py.Return (fmap fst <$> rows, fmap snd <$> rows).

End Faiss.

Module FaissStore.

Local Open Scope Q_scope.

Definition vector : Type := list Q.

(** A numpy array of one or two dimensions. *)
Inductive ndarray : Type :=
| Array1 (v : vector)
| Array2 (rows : list vector).

(** [if vecs.ndim == 1: vecs = vecs.reshape(1, -1)] *)
Definition as_rows (a : ndarray) : list vector :=
  match a with
  | Array1 v => [v]
  | Array2 rows => rows
  end.

(** What a path of the file system holds. *)
Inductive file : Type :=
| IndexFile (index : Faiss.IndexFlatIP)
| PickleFile (ids : list string)
| OtherFile (bytes : string).

Definition read_index (fs : gmap string file) (path : string)
  : Py.exc Faiss.IndexFlatIP :=
  match fs !! path with
  | Some (IndexFile index) => Py.Return index
  | _ => Py.Raise "RuntimeError"
  end.

Definition pickle_load (fs : gmap string file) (path : string)
  : Py.exc (list string) :=
  match fs !! path with
  | Some (PickleFile ids) => Py.Return ids
  | Some _ => Py.Raise "UnpicklingError"
  | None => Py.Raise "FileNotFoundError"
  end.

Record t : Type := mk {
  path : string;
  id_path : string;
  d : nat;
  index : Faiss.IndexFlatIP;
  ids : list string
}.

(** The store with a new, empty index. *)
Definition fresh (d : nat) (path id_path : string) : t :=
  {| path := path; id_path := id_path; d := d;
     index := {| Faiss.d := d; Faiss.xb := [] |};
     ids := [] |}.

(** The default arguments of the constructor. *)
Definition default_path : string := "./data/embeddings.faiss".
Definition default_id_path : string := "./data/ids.pkl".

(** [os.path.dirname] (posixpath): the part of [p] up to and including
    its last slash, without its trailing slashes unless it consists of
    slashes only.  The characters are handled last first. *)
Definition is_sep (c : ascii) : bool := Ascii.eqb c "/".

Fixpoint drop_to_sep (l : list ascii) : list ascii :=
  match l with
  | [] => []
  | c :: rest => if is_sep c then l else drop_to_sep rest
  end.

Fixpoint drop_seps (l : list ascii) : list ascii :=
  match l with
  | [] => []
  | c :: rest => if is_sep c then drop_seps rest else l
  end.

Definition dirname (p : string) : string :=
  let head := drop_to_sep (rev (list_ascii_of_string p)) in
  let stripped := drop_seps head in
  string_of_list_ascii
    (rev (match stripped with [] => head | _ :: _ => stripped end)).

(** [os.makedirs(name, exist_ok=True)].  The empty name raises
    FileNotFoundError; for any other name the outcome is that of the
    directory tree [tree], which answers for every name whether the
    directory exists or can be made, or with which error the call ends. *)
Definition makedirs (tree : string → Py.exc unit) (name : string)
  : Py.exc unit :=
  if bool_decide (name = "") then Py.Raise "FileNotFoundError"
  else tree name.

(** The constructor.  The directory of the index file is made before
    anything is read, outside the [try]: an error there leaves the
    constructor. *)
Definition __init__ (tree : string → Py.exc unit) (d : nat)
    (path id_path : string) (fs : gmap string file) : Py.exc t :=
  _ ← makedirs tree (dirname path);
  if bool_decide (is_Some (fs !! path)) && bool_decide (is_Some (fs !! id_path))
  then
    Py.Return
      (Py.try_except
         (index ← read_index fs path;
          ids ← pickle_load fs id_path;
          mret {| path := path; id_path := id_path; d := d;
                  index := index; ids := ids |})
         (fresh d path id_path))
  else Py.Return (fresh d path id_path).

Definition _save (self : t) (fs : gmap string file) : gmap string file :=
  <[id_path self := PickleFile (ids self)]>
    (<[path self := IndexFile (index self)]> fs).

Definition add (self : t) (vecs : ndarray) (new_ids : list string)
    (fs : gmap string file) : Py.exc (t * gmap string file) :=
  let vecs := as_rows vecs in
  index ← Faiss.add (index self) vecs;
  let self :=
    {| path := path self; id_path := id_path self; d := d self;
       index := index; ids := ids self ++ new_ids |} in
  mret (self, _save self fs).

(** One entry of a result row: [{"id": ..., "score": ...}]. *)
Record hit : Type := mk_hit { id : string; score : Q }.

(** The body of the inner loop: skip a label outside the id list. *)
Definition hit_of (self : t) (entry : Q * Z) : option hit :=
  let '(dist, idx) := entry in
  if (idx <? 0)%Z || (Z.of_nat (length (ids self)) <=? idx)%Z then None
  else (λ i, {| id := i; score := dist |}) <$> ids self !! Z.to_nat idx.

Definition row_hits (self : t) (dist_row : list Q) (idx_row : list Z)
  : list hit :=
  omap (hit_of self) (zip dist_row idx_row).

Definition search (self : t) (vec : ndarray) (top_k : nat)
  : Py.exc (list (list hit)) :=
  let vec := as_rows vec in
  if (Faiss.ntotal (index self) =? 0)%nat then Py.Return [[]]
  else
    '(D_, I_) ← Faiss.search (index self) vec top_k;
    mret (zip_with (row_hits self) D_ I_).

(** A sequence of [add] calls; a call that raises leaves the store as it
    was. *)
Fixpoint add_all (self : t) (fs : gmap string file)
    (ops : list (ndarray * list string)) : t * gmap string file :=
  match ops with
  | [] => (self, fs)
  | (vecs, new_ids) :: ops' =>
      match add self vecs new_ids fs with
      | Py.Return (self', fs') => add_all self' fs' ops'
      | Py.Raise _ => add_all self fs ops'
      end
  end.

End FaissStore.

(** ** Vocabulary of the properties *)

Module Props.

Local Open Scope Q_scope.
Import EnhancedJobMatcher.

(** A score lies in the unit interval. *)
Definition in_unit (q : Q) : Prop := 0 <= q ∧ q <= 1.

(** Every configured weight is non-negative. *)
Definition weights_nonneg (weights : gmap string Q) : Prop :=
  ∀ key w, weights !! key = Some w → 0 <= w.

(** The six weights the scorer uses: the configured value, or the default
    written at the call site when the key is missing. *)
Definition effective_weights (weights : gmap string Q) : list Q :=
  [ default 0.3 (weights !! "semantic_score");
    default 0.25 (weights !! "skill_match");
    default 0.2 (weights !! "experience_match");
    default 0.1 (weights !! "location_match");
    default 0.1 (weights !! "salary_match");
    default 0.05 (weights !! "company_match") ].

Definition weight_sum (weights : gmap string Q) : Q :=
  foldr Qplus 0 (effective_weights weights).

(** The six sub-scores of a computed record. *)
Definition sub_scores (m : MatchData.t) : list Q :=
  [ MatchData.semantic_score m; MatchData.skill_match_score m;
    MatchData.experience_match_score m; MatchData.location_match_score m;
    MatchData.salary_match_score m; MatchData.company_match_score m ].

(** The skills a job's description contributes. *)
Definition description_skills (job : Job.t) : gset string :=
  match Py.truthy_str (Job.description job) with
  | Some description => _extract_skills_from_text (Py.lower description)
  | None => ∅
  end.

(** The candidate's desired salary range, when the profile has one: a
    missing upper end is one and a half times the lower end. *)
Definition user_salary_range (user : UserProfile.t) : option (Q * Q) :=
  match Py.truthy_int (UserProfile.preferred_salary_min user) with
  | Some lo =>
      Some (Py.of_int lo,
            match Py.truthy_int (UserProfile.preferred_salary_max user) with
            | Some hi => Py.of_int hi
            | None => Py.of_int lo * 1.5
            end)
  | None => None
  end.

(** The job's offered salary range, when the posting has one: a missing
    upper end is the lower end. *)
Definition job_salary_range (job : Job.t) : option (Q * Q) :=
  match Py.truthy_int (Job.salary_min job) with
  | Some lo =>
      Some (Py.of_int lo,
            match Py.truthy_int (Job.salary_max job) with
            | Some hi => Py.of_int hi
            | None => Py.of_int lo
            end)
  | None => None
  end.

(** The salary score as a function of the two ranges (lines 336-356). *)
Definition range_score (user_min user_max job_min job_max : Q) : Q :=
  if Py.ge job_max user_min && Py.le job_min user_max then
    let overlap_start := Qmax user_min job_min in
    let overlap_end := Qmin user_max job_max in
    let overlap := overlap_end - overlap_start in
    let user_range := user_max - user_min in
    if Py.gt user_range 0 then Qmin 1.0 (overlap / user_range)
    else 1.0
  else if Py.lt job_max user_min then
    let gap := user_min - job_max in
    Qmax 0.2 (1.0 - gap / user_min)
  else 1.0.

(** An [add] call the index of dimension [d] accepts. *)
Definition accepted (d : nat) (op : FaissStore.ndarray * list string) : Prop :=
  Faiss.has_dim d (FaissStore.as_rows op.1) = true.

#[global] Instance accepted_dec d op : Decision (accepted d op).
Proof. unfold accepted. apply _. Defined.

(** The ids inserted by a sequence of [add] calls. *)
Definition inserted_ids (d : nat)
    (ops : list (FaissStore.ndarray * list string)) : list string :=
  mjoin (snd <$> filter (accepted d) ops).

(** Distance-label pairs, best first. *)
Definition by_distance : relation (Q * Z) := λ a b, b.1 <= a.1.

(** Scores in non-increasing order. *)
Definition descending (scores : list Q) : Prop :=
  StronglySorted (λ a b, b <= a) scores.

(** Reading the persisted index or the persisted id list fails. *)
Definition unreadable (fs : gmap string FaissStore.file)
    (path id_path : string) : Prop :=
  (∃ e, FaissStore.read_index fs path = Py.Raise e)
  ∨ (∃ e, FaissStore.pickle_load fs id_path = Py.Raise e).

(** Both can be read, but the index holds a number of vectors that differs
    from the number of ids. *)
Definition inconsistent (fs : gmap string FaissStore.file)
    (path id_path : string) : Prop :=
  ∃ index ids,
    FaissStore.read_index fs path = Py.Return index
    ∧ FaissStore.pickle_load fs id_path = Py.Return ids
    ∧ Faiss.ntotal index ≠ length ids.

(** Both files exist and are corrupted. *)
Definition corrupted (fs : gmap string FaissStore.file)
    (path id_path : string) : Prop :=
  is_Some (fs !! path) ∧ is_Some (fs !! id_path)
  ∧ (unreadable fs path id_path ∨ inconsistent fs path id_path).

(** Records, largest overall score first. *)
Definition by_overall_score : relation MatchData.t :=
  λ a b, MatchData.overall_score b <= MatchData.overall_score a.

(** Number of stored rows for a (user, job) pair. *)
Definition count_rows (user_id job_id : Z) (table : list Match.t) : nat :=
  length (filter (λ m, Match.user_id m = user_id ∧ Match.job_id m = job_id) table).

(** The job ids of a list of records. *)
Definition job_ids (records : list MatchData.t) : list Z :=
  MatchData.job_id <$> records.

End Props.

(** ** Sample data *)

Module Sample.

Local Open Scope Q_scope.
Import EnhancedJobMatcher.

(** A candidate with skills python and react, five years of experience and
    a desired salary of 100000 to 130000. *)
Definition alice : UserProfile.t :=
  {| UserProfile.id := 1;
     UserProfile.resume_text := None;
     UserProfile.skills := Some ["python"; "react"];
     UserProfile.experience_years := Some 5%Z;
     UserProfile.current_title := Some "Engineer";
     UserProfile.preferred_locations := None;
     UserProfile.preferred_remote := None;
     UserProfile.preferred_company_size := None;
     UserProfile.preferred_salary_min := Some 100000%Z;
     UserProfile.preferred_salary_max := Some 130000%Z |}.

(** A posting that requires python and sql and offers 120000 to 150000. *)
Definition backend_job : Job.t :=
  {| Job.id := 7;
     Job.title := Some "Developer";
     Job.location := None;
     Job.description := None;
     Job.experience_level := Some "senior";
     Job.salary_min := Some 120000%Z;
     Job.salary_max := Some 150000%Z;
     Job.remote_option := None;
     Job.required_skills := Some ["python"; "sql"];
     Job.preferred_skills := None;
     Job.is_active := Some true;
     Job.company := None |}.

(** A candidate without work experience. *)
Definition graduate : UserProfile.t :=
  {| UserProfile.id := 2;
     UserProfile.resume_text := None;
     UserProfile.skills := Some ["python"];
     UserProfile.experience_years := Some 0%Z;
     UserProfile.current_title := None;
     UserProfile.preferred_locations := None;
     UserProfile.preferred_remote := None;
     UserProfile.preferred_company_size := None;
     UserProfile.preferred_salary_min := None;
     UserProfile.preferred_salary_max := None |}.

Definition entry_job : Job.t :=
  {| Job.id := 8;
     Job.title := Some "Trainee";
     Job.location := None;
     Job.description := None;
     Job.experience_level := Some "entry";
     Job.salary_min := None;
     Job.salary_max := None;
     Job.remote_option := None;
     Job.required_skills := Some ["python"];
     Job.preferred_skills := None;
     Job.is_active := Some true;
     Job.company := None |}.

Definition mid_job : Job.t :=
  {| Job.id := 9;
     Job.title := Some "Engineer";
     Job.location := None;
     Job.description := None;
     Job.experience_level := Some "mid";
     Job.salary_min := None;
     Job.salary_max := None;
     Job.remote_option := None;
     Job.required_skills := Some ["python"];
     Job.preferred_skills := None;
     Job.is_active := Some true;
     Job.company := None |}.

(** Three vectors under three ids, then a vector of the wrong length. *)
Definition insertions : list (FaissStore.ndarray * list string) :=
  [ (FaissStore.Array2 [[1; 0]; [0; 1]], ["job:1"; "job:2"]);
    (FaissStore.Array1 [1; 1], ["job:3"]);
    (FaissStore.Array1 [1; 1; 1], ["job:4"]) ].

(** An index file that is not an index, next to a good id list. *)
Definition garbled_fs : gmap string FaissStore.file :=
  {[ FaissStore.default_path := FaissStore.OtherFile "not an index";
     FaissStore.default_id_path := FaissStore.PickleFile ["job:1"] ]}.

(** Two stored vectors, one id. *)
Definition mismatched_fs : gmap string FaissStore.file :=
  {[ FaissStore.default_path :=
       FaissStore.IndexFile {| Faiss.d := 2; Faiss.xb := [[1; 0]; [0; 1]] |};
     FaissStore.default_id_path := FaissStore.PickleFile ["job:1"] ]}.

(** A directory tree in which every directory exists or can be made, and
    one in which none can. *)
Definition writable_tree (name : string) : Py.exc unit := Py.Return tt.
Definition read_only_tree (name : string) : Py.exc unit :=
  Py.Raise "PermissionError".

(** An encoder whose model is unavailable. *)
Definition failing_encoder (texts : list string) : Py.exc (list vector) :=
  Py.Raise "EncodingError".

(** An encoder that maps every text to the same unit vector. *)
Definition constant_encoder (texts : list string) : Py.exc (list vector) :=
  Py.Return ((λ _, [1; 0]) <$> texts).

(** The norm of the vectors [constant_encoder] produces. *)
Definition unit_norm (v : vector) : Q := 1.

(** The set iteration order of one process. *)
Definition hash_order : Py.set_order :=
  {| Py.list_of := elements;
     Py.list_of_perm := λ s, reflexivity (elements s) |}.

(** A matcher whose configuration has no [matching] section. *)
Definition default_matcher : t :=
  {| encoder := constant_encoder; weights := ∅; thresholds := ∅;
     set_order := hash_order |}.

(** Every weight set to one, and every record kept. *)
Definition heavy_weights : gmap string Q :=
  list_to_map
    [ ("semantic_score", 1); ("skill_match", 1); ("experience_match", 1);
      ("location_match", 1); ("salary_match", 1); ("company_match", 1) ].

Definition heavy_matcher : t :=
  {| encoder := constant_encoder; weights := heavy_weights; thresholds := ∅;
     set_order := hash_order |}.

Definition offline_matcher : t :=
  {| encoder := failing_encoder; weights := ∅;
     thresholds := {[ "minimum_match_score" := 0.4 ]};
     set_order := hash_order |}.

(** A row left by an earlier run, for a posting that is gone. *)
Definition old_row : Match.t :=
  {| Match.user_id := 1; Match.job_id := 3;
     Match.overall_score := 0.9; Match.semantic_score := 0.9;
     Match.skill_match_score := 0.9; Match.experience_match_score := 0.9;
     Match.location_match_score := 0.9; Match.salary_match_score := 0.9;
     Match.company_match_score := 0.9;
     Match.matched_skills := ["python"]; Match.missing_skills := [];
     Match.reasons := []; Match.is_viewed := true; Match.is_saved := false;
     Match.user_rating := None |}.

Definition db : DB.t :=
  {| DB.user_profiles := [alice];
     DB.jobs := [backend_job];
     DB.matches := [old_row] |}.

End Sample.

(** ** [src/config.py] *)

Module Config.

Local Open Scope Q_scope.

(** What [yaml.safe_load] produces. *)
#[local] Set Warnings "-register-all".
Inductive value : Type :=
| Null
| Bool (b : bool)
| Num (q : Q)
| Str (s : string)
| Seq (items : list value)
| Dict (entries : gmap string value).
#[local] Set Warnings "register-all".

(** [s.split(sep)] for a one-character separator: every occurrence cuts, so
    the result has one more piece than [s] has separators. *)
Fixpoint split (sep : ascii) (s : string) : list string :=
  match s with
  | EmptyString => [""]
  | String c rest =>
      if Ascii.eqb c sep then "" :: split sep rest
      else
        match split sep rest with
        | piece :: pieces => String c piece :: pieces
        | [] => [String c ""]
        end
  end.

(** The loop of [get]: descend while the value is a dictionary that has the
    key, else give the default. *)
Fixpoint get_keys (value : value) (keys : list string) (default : Config.value)
  : Config.value :=
  match keys with
  | [] => value
  | k :: keys' =>
      match value with
      | Dict entries =>
          match entries !! k with
          | Some inner => get_keys inner keys' default
          | None => default
          end
      | _ => default
      end
  end.

(** [self.get(key, default)], [self] being its [_config]. *)
Definition get (_config : value) (key : string) (default : value) : value :=
  get_keys _config (split "." key) default.

(** The loop and the final assignment of [set].  Anything but a dictionary
    on the way raises [TypeError]; a missing key on the way becomes an empty
    dictionary. *)
Fixpoint set_keys (config : value) (keys : list string) (v : value)
  : Py.exc value :=
  match keys with
  | [] => Py.Raise "IndexError"
  | k :: keys' =>
      match config with
      | Dict entries =>
          match keys' with
          | [] => Py.Return (Dict (<[k := v]> entries))
          | _ :: _ =>
              let entries :=
                match entries !! k with
                | Some _ => entries
                | None => <[k := Dict ∅]> entries
                end in
              inner ← set_keys (default (Dict ∅) (entries !! k)) keys' v;
              mret (Dict (<[k := inner]> entries))
          end
      | _ => Py.Raise "TypeError"
      end
  end.

(** [self.set(key, value)]: the configuration after the call. *)
Definition set (_config : value) (key : string) (v : value) : Py.exc value :=
  set_keys _config (split "." key) v.

Definition matching_weights (_config : value) : value :=
  get _config "matching.weights" (Dict ∅).

Definition matching_thresholds (_config : value) : value :=
  get _config "matching.thresholds" (Dict ∅).

End Config.

(** ** [src/matcher/enhanced_matcher.py], lines 22-123: job scores *)

Module JobScoring.

Local Open Scope Q_scope.

(** A job row with the further columns these methods read and write:
    [company_score] is the column of the related company (read only when
    the job has one), [posted_date] a UTC instant in microseconds. *)
Record listing : Type := mk {
  job : Job.t;
  company_score : option Q;
  posted_date : option Z;
  benefits : option (list string);
  job_score : option Q;
  freshness_score : option Q;
  competition_level : option string
}.

(** [job.company and job.company.company_score] *)
Definition truthy_company_score (l : listing) : option Q :=
  match Job.company (job l) with
  | Some _ => Py.truthy_float (company_score l)
  | None => None
  end.

Definition remote_scores : gmap string Q :=
  list_to_map [ ("remote", 1.0); ("hybrid", 0.8); ("onsite", 0.5) ].

Definition _calculate_job_attractiveness (l : listing) : Q :=
  let score := 0.0 in
  let score :=
    match truthy_company_score l with
    | Some company_score => score + 0.3 * (company_score / 5.0)
    | None => score
    end in
  let score :=
    match Py.truthy_int (Job.salary_min (job l)),
          Py.truthy_int (Job.salary_max (job l)) with
    | Some salary_min, Some salary_max =>
        let avg_salary := Py.of_int (salary_min + salary_max) / 2 in
        let salary_score := Qmin 1.0 (avg_salary / 200000) in
        score + 0.25 * salary_score
    | _, _ => score
    end in
  let remote_score :=
    match Job.remote_option (job l) with
    | Some remote_option => default 0.6 (remote_scores !! remote_option)
    | None => 0.6
    end in
  let score := score + 0.2 * remote_score in
  let score :=
    match benefits l with
    | Some (b :: bs) =>
        let benefits_score := Qmin 1.0 (Py.of_len (length (b :: bs)) / 10) in
        score + 0.15 * benefits_score
    | _ => score
    end in
  let exp_score :=
    if from_option (λ e, Py.mem e ["mid"; "senior"]) false
         (Job.experience_level (job l))
    then 1.0
    else if from_option (λ e, Py.mem e ["entry"; "junior"]) false
              (Job.experience_level (job l))
    then 0.7
    else 0.8 in
  let score := score + 0.1 * exp_score in
  Qmin 1.0 score.

(** Microseconds in a day. *)
Definition day : Z := 86400000000.

(** [(datetime.utcnow() - job.posted_date).days], [now] being the clock. *)
Definition days_old (now posted_date : Z) : Z := ((now - posted_date) `div` day)%Z.

Definition _calculate_freshness_score (now : Z) (l : listing) : Q :=
  match posted_date l with
  | None => 0.5
  | Some posted_date =>
      let days_old := days_old now posted_date in
      if (days_old <=? 7)%Z then 1.0
      else if (days_old <=? 30)%Z then 0.8
      else if (days_old <=? 60)%Z then 0.6
      else if (days_old <=? 90)%Z then 0.4
      else 0.2
  end.

(** The points [_estimate_competition_level] adds up. *)
Definition competition_points (l : listing) : Z :=
  let score := 0%Z in
  let score :=
    match Py.truthy_int (Job.salary_min (job l)) with
    | Some salary_min =>
        if (150000 <? salary_min)%Z then (score + 2)%Z
        else if (100000 <? salary_min)%Z then (score + 1)%Z
        else score
    | None => score
    end in
  let score :=
    if from_option (λ e, Py.mem e ["senior"; "lead"; "principal"]) false
         (Job.experience_level (job l))
    then (score + 2)%Z
    else if bool_decide (Job.experience_level (job l) = Some "mid")
    then (score + 1)%Z
    else score in
  let score :=
    match truthy_company_score l with
    | Some company_score =>
        if Py.gt company_score 4.0 then (score + 2)%Z
        else if Py.gt company_score 3.5 then (score + 1)%Z
        else score
    | None => score
    end in
  let score :=
    if bool_decide (Job.remote_option (job l) = Some "remote")
    then (score + 1)%Z else score in
  score.

Definition _estimate_competition_level (l : listing) : string :=
  let score := competition_points l in
  if (5 <=? score)%Z then "high"
  else if (3 <=? score)%Z then "medium"
  else "low".

(** The body of the loop of [calculate_job_scores], applied to a row of
    the job table: an active row gets its three scores, any other row is
    not part of the query. *)
Definition job_score_step (now : Z) (l : listing) : listing :=
  if bool_decide (Job.is_active (job l) = Some true) then
    {| job := job l;
       company_score := company_score l;
       posted_date := posted_date l;
       benefits := benefits l;
       job_score := Some (_calculate_job_attractiveness l);
       freshness_score := Some (_calculate_freshness_score now l);
       competition_level := Some (_estimate_competition_level l) |}
  else l.

(** [calculate_job_scores]: the three scores of every active job are
    recomputed and committed. *)
Definition calculate_job_scores (now : Z) (jobs : list listing) : list listing :=
  job_score_step now <$> jobs.

End JobScoring.

(** ** [src/matcher/matcher.py]: filling the vector store *)

Module Matcher.

(** ["\n"] *)
Definition newline : string := String (ascii_of_nat 10) EmptyString.

(** The text embedded for a job: title and description on two lines. *)
Definition job_document (j : Job.t) : string :=
  Py.or_blank (Job.title j) +:+ newline +:+ Py.or_blank (Job.description j).

(** [f"job:{j.id}"]: the id in decimal, as [str] prints an [int]. *)
Definition job_key (j : Job.t) : string := "job:" +:+ pretty (Job.id j).

(** [embed_and_store_jobs]: [encode] is the module's encoder on a list of
    texts, [vs] the module's store, [jobs] the whole job table.  With no
    job nothing is encoded or added. *)
Definition embed_and_store_jobs
    (encode : list string → Py.exc (list FaissStore.vector))
    (vs : FaissStore.t) (fs : gmap string FaissStore.file)
    (jobs : list Job.t)
  : Py.exc (FaissStore.t * gmap string FaissStore.file) :=
  let texts := job_document <$> jobs in
  let ids := job_key <$> jobs in
  match texts with
  | [] => Py.Return (vs, fs)
  | _ :: _ =>
      vecs ← encode texts;
      FaissStore.add vs (FaissStore.Array2 vecs) ids fs
  end.

End Matcher.

(** ** Further vocabulary *)

Module Facts.

Local Open Scope Q_scope.
Import EnhancedJobMatcher Props.

(** The store has as many ids as vectors. *)
Definition consistent (self : FaissStore.t) : Prop :=
  Faiss.ntotal (FaissStore.index self) = length (FaissStore.ids self).

(** The rows of one user, in table order. *)
Definition rows_of (user_id : Z) (table : list Match.t) : list Match.t :=
  filter (λ m, Match.user_id m = user_id) table.

(** Salary figures as a posting and a profile should have them: positive,
    and the lower end not above the upper end. *)
Definition salary_ranges_wf (user : UserProfile.t) (job : Job.t) : Prop :=
  (∀ lo hi, user_salary_range user = Some (lo, hi) → 0 < lo ∧ lo <= hi)
  ∧ (∀ lo hi, job_salary_range job = Some (lo, hi) → 0 < lo ∧ lo <= hi).

(** The employer's rating, when the job has an employer with one, is not
    negative. *)
Definition rating_nonneg (job : Job.t) : Prop :=
  ∀ company rating,
    Job.company job = Some company →
    Company.glassdoor_rating company = Some rating → 0 <= rating.

(** A record whose overall score is [q]. *)
Definition has_score (q : Q) (m : MatchData.t) : Prop :=
  MatchData.overall_score m == q.

#[global] Instance has_score_dec q m : Decision (has_score q m).
Proof. unfold has_score. apply Qeq_dec. Defined.

(** A stored row as a run writes it: not viewed, not saved, not rated. *)
Definition untouched (row : Match.t) : Prop :=
  Match.is_viewed row = false ∧ Match.is_saved row = false
  ∧ Match.user_rating row = None.

(** Two key paths that part ways: after a common beginning, each goes on
    with a key the other does not have there. *)
Definition diverge (keys keys' : list string) : Prop :=
  ∃ common k k' rest rest',
    keys = common ++ k :: rest ∧ keys' = common ++ k' :: rest' ∧ k ≠ k'.

(** A posting that is recomputed by [calculate_job_scores]. *)
Definition active (l : JobScoring.listing) : Prop :=
  Job.is_active (JobScoring.job l) = Some true.

(** The minimum overall score a run keeps. *)
Definition minimum_match_score (self : t) : Q :=
  default 0.6 (thresholds self !! "minimum_match_score").

(** Two result records for the same posting with the same seven scores,
    the same matched and the same missing skills, each list in some
    order, and as many reasons. *)
Definition alike (m m' : MatchData.t) : Prop :=
  MatchData.job_id m' = MatchData.job_id m
  ∧ MatchData.job m' = MatchData.job m
  ∧ MatchData.overall_score m' = MatchData.overall_score m
  ∧ MatchData.semantic_score m' = MatchData.semantic_score m
  ∧ MatchData.skill_match_score m' = MatchData.skill_match_score m
  ∧ MatchData.experience_match_score m' = MatchData.experience_match_score m
  ∧ MatchData.location_match_score m' = MatchData.location_match_score m
  ∧ MatchData.salary_match_score m' = MatchData.salary_match_score m
  ∧ MatchData.company_match_score m' = MatchData.company_match_score m
  ∧ MatchData.matched_skills m' ≡ₚ MatchData.matched_skills m
  ∧ MatchData.missing_skills m' ≡ₚ MatchData.missing_skills m
  ∧ length (MatchData.reasons m') = length (MatchData.reasons m).

(** The same for two stored rows, which also agree on the user and on the
    three interaction columns. *)
Definition alike_rows (r r' : Match.t) : Prop :=
  Match.user_id r' = Match.user_id r
  ∧ Match.job_id r' = Match.job_id r
  ∧ Match.overall_score r' = Match.overall_score r
  ∧ Match.semantic_score r' = Match.semantic_score r
  ∧ Match.skill_match_score r' = Match.skill_match_score r
  ∧ Match.experience_match_score r' = Match.experience_match_score r
  ∧ Match.location_match_score r' = Match.location_match_score r
  ∧ Match.salary_match_score r' = Match.salary_match_score r
  ∧ Match.company_match_score r' = Match.company_match_score r
  ∧ Match.matched_skills r' ≡ₚ Match.matched_skills r
  ∧ Match.missing_skills r' ≡ₚ Match.missing_skills r
  ∧ length (Match.reasons r') = length (Match.reasons r)
  ∧ Match.is_viewed r' = Match.is_viewed r
  ∧ Match.is_saved r' = Match.is_saved r
  ∧ Match.user_rating r' = Match.user_rating r.

(** Two matchers with the same encoder, weights and thresholds: the same
    service, possibly in two processes. *)
Definition same_settings (self self' : t) : Prop :=
  encoder self' = encoder self
  ∧ weights self' = weights self
  ∧ thresholds self' = thresholds self.

End Facts.

(** ** Further sample data *)

Module Fixtures.

Local Open Scope Q_scope.

(** A posting with a level that the table of ranges does not list, a
    location, and an employer rated 4 of 5. *)
Definition staff_job : Job.t :=
  {| Job.id := 10;
     Job.title := Some "Staff Engineer";
     Job.location := Some "Berlin";
     Job.description := Some "we use javascript daily";
     Job.experience_level := Some "staff";
     Job.salary_min := Some 160000%Z;
     Job.salary_max := None;
     Job.remote_option := Some "remote";
     Job.required_skills := None;
     Job.preferred_skills := None;
     Job.is_active := Some true;
     Job.company :=
       Some {| Company.company_size := Some "startup";
               Company.glassdoor_rating := Some 4 |} |}.

(** A candidate whose list of preferred locations holds an empty entry. *)
Definition nomad : UserProfile.t :=
  {| UserProfile.id := 3;
     UserProfile.resume_text := None;
     UserProfile.skills := None;
     UserProfile.experience_years := None;
     UserProfile.current_title := None;
     UserProfile.preferred_locations := Some [""];
     UserProfile.preferred_remote := None;
     UserProfile.preferred_company_size := None;
     UserProfile.preferred_salary_min := None;
     UserProfile.preferred_salary_max := None |}.

(** A row of another user, marked as saved and rated. *)
Definition saved_row : Match.t :=
  {| Match.user_id := 2; Match.job_id := 7;
     Match.overall_score := 0.7; Match.semantic_score := 0.7;
     Match.skill_match_score := 0.7; Match.experience_match_score := 0.7;
     Match.location_match_score := 0.7; Match.salary_match_score := 0.7;
     Match.company_match_score := 0.7;
     Match.matched_skills := []; Match.missing_skills := [];
     Match.reasons := []; Match.is_viewed := true; Match.is_saved := true;
     Match.user_rating := Some 5%Z |}.

(** Two users, two postings, and rows of both users. *)
Definition shared_db : DB.t :=
  {| DB.user_profiles := [Sample.alice; Sample.graduate];
     DB.jobs := [Sample.backend_job; staff_job];
     DB.matches := [Sample.old_row; saved_row] |}.

(** A configuration with a matching section. *)
Definition settings : Config.value :=
  Config.Dict
    {[ "matching" :=
         Config.Dict
           {[ "weights" := Config.Dict {[ "semantic_score" := Config.Num 0.3 ]};
              "thresholds" :=
                Config.Dict {[ "minimum_match_score" := Config.Num 0.6 ]} ]} ]}.

(** The staff posting as a scored row: employer scored 4.5, posted at
    instant 0, three benefits. *)
Definition staff_listing : JobScoring.listing :=
  {| JobScoring.job := staff_job;
     JobScoring.company_score := Some 4.5;
     JobScoring.posted_date := Some 0%Z;
     JobScoring.benefits := Some ["health"; "equity"; "remote"];
     JobScoring.job_score := None;
     JobScoring.freshness_score := None;
     JobScoring.competition_level := None |}.

(** An entry-level posting without salary or employer data. *)
Definition entry_listing : JobScoring.listing :=
  {| JobScoring.job := Sample.entry_job;
     JobScoring.company_score := None;
     JobScoring.posted_date := None;
     JobScoring.benefits := None;
     JobScoring.job_score := None;
     JobScoring.freshness_score := None;
     JobScoring.competition_level := None |}.

(** An encoder that gives every text the same vector of dimension two. *)
Definition flat_encoder (texts : list string)
  : Py.exc (list FaissStore.vector) :=
  Py.Return ((λ _, [1; 0]) <$> texts).

(** The set iteration order of another process: every set the other way
    round. *)
Definition reversed_order : Py.set_order :=
  {| Py.list_of := λ s, reverse (elements s);
     Py.list_of_perm := λ s, reverse_Permutation (elements s) |}.

(** The default matcher after a restart of the service. *)
Definition restarted_matcher : EnhancedJobMatcher.t :=
  {| EnhancedJobMatcher.encoder := Sample.constant_encoder;
     EnhancedJobMatcher.weights := ∅;
     EnhancedJobMatcher.thresholds := ∅;
     EnhancedJobMatcher.set_order := reversed_order |}.

(** A posting that requires both of the skills that [Sample.alice] has. *)
Definition fullstack_job : Job.t :=
  {| Job.id := 11;
     Job.title := Some "Fullstack Developer";
     Job.location := None;
     Job.description := None;
     Job.experience_level := Some "senior";
     Job.salary_min := None;
     Job.salary_max := None;
     Job.remote_option := None;
     Job.required_skills := Some ["python"; "react"];
     Job.preferred_skills := None;
     Job.is_active := Some true;
     Job.company := None |}.

Definition fullstack_db : DB.t :=
  {| DB.user_profiles := [Sample.alice];
     DB.jobs := [fullstack_job];
     DB.matches := [] |}.

End Fixtures.

(** * Properties *)

Module ScorerProofs.

Local Open Scope Q_scope.
Import EnhancedJobMatcher Props.

Lemma default_weight_nonneg (weights : gmap string Q) key dflt :
  weights_nonneg weights → 0 <= dflt → 0 <= default dflt (weights !! key).
Proof.
  intros Hw Hd. destruct (weights !! key) as [w|] eqn:E; simpl; [|done].
  by apply (Hw key).
Qed.

(** A non-negative weight times a score of the unit interval lies between
    zero and the weight. *)
Lemma weighted_term_bounds w s :
  0 <= w → in_unit s → 0 <= w * s ∧ w * s <= w.
Proof.
  intros Hw [H0 H1]. split.
  - by apply Qmult_le_0_compat.
  - rewrite <- (Qmult_1_r w) at 2.
    destruct (Qeq_dec w 0) as [Hz|Hz].
    + rewrite Hz. lra.
    + apply Qmult_le_l; [|done]. lra.
Qed.

Lemma weighted_overall_score_bounds weights s1 s2 s3 s4 s5 s6 :
  weights_nonneg weights → weight_sum weights <= 1 →
  in_unit s1 → in_unit s2 → in_unit s3 → in_unit s4 → in_unit s5 → in_unit s6 →
  in_unit (weighted_overall_score weights s1 s2 s3 s4 s5 s6).
Proof.
  intros Hw Hsum H1 H2 H3 H4 H5 H6.
  unfold weighted_overall_score, weight_sum, effective_weights in *. simpl in Hsum.
  pose proof (weighted_term_bounds _ _ (default_weight_nonneg weights "semantic_score" 0.3 Hw ltac:(lra)) H1).
  pose proof (weighted_term_bounds _ _ (default_weight_nonneg weights "skill_match" 0.25 Hw ltac:(lra)) H2).
  pose proof (weighted_term_bounds _ _ (default_weight_nonneg weights "experience_match" 0.2 Hw ltac:(lra)) H3).
  pose proof (weighted_term_bounds _ _ (default_weight_nonneg weights "location_match" 0.1 Hw ltac:(lra)) H4).
  pose proof (weighted_term_bounds _ _ (default_weight_nonneg weights "salary_match" 0.1 Hw ltac:(lra)) H5).
  pose proof (weighted_term_bounds _ _ (default_weight_nonneg weights "company_match" 0.05 Hw ltac:(lra)) H6).
  unfold in_unit. lra.
Qed.

(** The overall score of a record is the weighted sum of its own
    sub-scores. *)
Lemma overall_score_is_weighted_sum norm self user job :
  let m := _calculate_match_score norm self user job in
  MatchData.overall_score m =
  weighted_overall_score (weights self)
    (MatchData.semantic_score m) (MatchData.skill_match_score m)
    (MatchData.experience_match_score m) (MatchData.location_match_score m)
    (MatchData.salary_match_score m) (MatchData.company_match_score m).
Proof.
  unfold _calculate_match_score.
  by destruct (_calculate_skill_match self user job) as [[? ?] ?].
Qed.

(** C1, as stated, fails: with every weight set to one, a candidate and a
    posting whose six sub-scores all lie in [0,1] get an overall score
    above one; the weighted sum is returned as computed. *)
Lemma overall_score_exceeds_one :
  let m := _calculate_match_score Sample.unit_norm Sample.heavy_matcher
             Sample.alice Sample.backend_job in
  weights_nonneg (weights Sample.heavy_matcher) ∧
  Forall in_unit (sub_scores m) ∧
  ¬ in_unit (MatchData.overall_score m).
Proof.
  split; [|split].
  - intros key w H. change (Sample.heavy_weights !! key = Some w) in H.
    unfold Sample.heavy_weights in H. apply elem_of_list_to_map_2 in H.
    repeat (apply elem_of_cons in H as [H|H]; [simplify_eq; lra|]).
    by apply elem_of_nil in H.
  - vm_compute. repeat constructor; discriminate.
  - vm_compute. intros [_ H]. by apply H.
Qed.

(** C1 (amended): for every profile, job and weight configuration with
    non-negative weights whose sum, defaults included, is at most one, if
    the six sub-scores of the computed record are in [0,1] then its
    overall score is in [0,1]. *)
Theorem overall_score_in_unit_interval norm self user job :
  let m := _calculate_match_score norm self user job in
  weights_nonneg (weights self) →
  weight_sum (weights self) <= 1 →
  Forall in_unit (sub_scores m) →
  in_unit (MatchData.overall_score m).
Proof.
  intros m Hw Hsum Hsub. subst m.
  rewrite overall_score_is_weighted_sum.
  unfold sub_scores in Hsub.
  repeat (apply Forall_cons in Hsub as [? Hsub]).
  by apply weighted_overall_score_bounds.
Qed.

Lemma overall_score_in_unit_interval_witness :
  in_unit (MatchData.overall_score
             (_calculate_match_score Sample.unit_norm Sample.default_matcher
                Sample.alice Sample.backend_job)).
Proof.
  apply (overall_score_in_unit_interval Sample.unit_norm Sample.default_matcher
           Sample.alice Sample.backend_job).
  - intros key w H. vm_compute in H. discriminate.
  - vm_compute. discriminate.
  - vm_compute. repeat constructor; discriminate.
Defined.

End ScorerProofs.

Module RepositoryProofs.

Local Open Scope Q_scope.
Import EnhancedJobMatcher Props.

(** No kept row belongs to the user whose rows were deleted. *)
Lemma kept_rows_other_user user_id job_id (table : list Match.t) :
  filter (λ m, Match.user_id m = user_id ∧ Match.job_id m = job_id)
    (filter (λ m, Match.user_id m ≠ user_id) table) = [].
Proof.
  induction table as [|m table IH]; [done|].
  rewrite (filter_cons (λ m, Match.user_id m ≠ user_id)).
  destruct (decide (Match.user_id m ≠ user_id)) as [Hne|_]; [|done].
  rewrite filter_cons, IH. destruct (decide _) as [[? _]|_]; done.
Qed.

(** The new rows for a pair are as many as the records with that job id. *)
Lemma new_rows_count user_id job_id (records : list MatchData.t) :
  length (filter (λ m, Match.user_id m = user_id ∧ Match.job_id m = job_id)
            (match_row user_id <$> records))
  = length (filter (λ j, j = job_id) (job_ids records)).
Proof.
  induction records as [|r records IH]; [done|].
  unfold job_ids in *. rewrite !fmap_cons, !filter_cons.
  destruct (decide (MatchData.job_id r = job_id)) as [Heq|Hne];
    destruct (decide _) as [[? Hj]|Hn]; simpl in *.
  - by rewrite IH.
  - destruct Hn. by split.
  - done.
  - done.
Qed.

(** After [_store_matches], the table holds, for each job id, as many rows
    of the user as the stored list has records with that job id. *)
Lemma store_matches_count user_id job_id records db :
  count_rows user_id job_id (DB.matches (_store_matches user_id records db))
  = length (filter (λ j, j = job_id) (job_ids records)).
Proof.
  unfold count_rows, _store_matches. simpl.
  rewrite filter_app, length_app, kept_rows_other_user. simpl.
  apply new_rows_count.
Qed.

Lemma occurrences_absent (job_id : Z) (ids : list Z) :
  job_id ∉ ids → filter (λ j, j = job_id) ids = [].
Proof.
  induction ids as [|i ids IH]; [done|].
  intros Hn. apply not_elem_of_cons in Hn as [Hne Hn].
  rewrite filter_cons. destruct (decide (i = job_id)); [done|]. by apply IH.
Qed.

Lemma occurrences_nodup (job_id : Z) (ids : list Z) :
  NoDup ids → job_id ∈ ids → length (filter (λ j, j = job_id) ids) = 1%nat.
Proof.
  induction 1 as [|i ids Hni Hnd IH]; intros Hin.
  - by apply elem_of_nil in Hin.
  - rewrite filter_cons. destruct (decide (i = job_id)) as [->|Hne].
    + by rewrite occurrences_absent.
    + apply elem_of_cons in Hin as [->|Hin]; [done|]. by apply IH.
Qed.

(** Rows of other users are not touched. *)
Lemma store_matches_other_users user_id other records db :
  other ≠ user_id →
  filter (λ m, Match.user_id m = other)
    (DB.matches (_store_matches user_id records db))
  = filter (λ m, Match.user_id m = other) (DB.matches db).
Proof.
  intros Hne. unfold _store_matches. simpl. rewrite filter_app.
  assert (filter (λ m, Match.user_id m = other) (match_row user_id <$> records) = [])
    as ->.
  { induction records as [|r records IH]; [done|].
    rewrite fmap_cons, filter_cons. destruct (decide _) as [Heq|_]; [|done].
    simpl in Heq. congruence. }
  rewrite app_nil_r. rewrite list_filter_filter.
  induction (DB.matches db) as [|m table IH]; [done|].
  rewrite !filter_cons. destruct (decide (Match.user_id m = other)) as [Heq|Hn].
  - destruct (decide _) as [_|Hn]; [by rewrite IH|]. destruct Hn. split; congruence.
  - destruct (decide _) as [[? _]|_]; [done|]. apply IH.
Qed.

(** C2, as stated, fails: storing a list that names job 7 twice leaves two
    rows for the pair (1, 7). *)
Lemma store_matches_duplicate_rows :
  let r := _calculate_match_score Sample.unit_norm Sample.default_matcher
             Sample.alice Sample.backend_job in
  let db := _store_matches 1 [r; r] Sample.db in
  (7 : Z) ∈ job_ids [r; r] ∧ count_rows 1 7 (DB.matches db) ≠ 1%nat.
Proof.
  split.
  - apply elem_of_cons. by left.
  - rewrite store_matches_count. vm_compute. discriminate.
Qed.

(** C2 (amended): after [_store_matches] for a user id with a list of
    records whose job ids are pairwise distinct, the Match table holds
    exactly one row per (user_id, job_id) for every job id of the list and
    no row of that user for any other job id. *)
Theorem store_matches_one_row_per_job user_id records db :
  NoDup (job_ids records) →
  ∀ job_id,
    (job_id ∈ job_ids records →
     count_rows user_id job_id
       (DB.matches (_store_matches user_id records db)) = 1%nat) ∧
    (job_id ∉ job_ids records →
     count_rows user_id job_id
       (DB.matches (_store_matches user_id records db)) = 0%nat).
Proof.
  intros Hnd job_id. rewrite store_matches_count. split; intros Hin.
  - by apply occurrences_nodup.
  - by rewrite occurrences_absent.
Qed.

Lemma store_matches_one_row_per_job_witness :
  let r := _calculate_match_score Sample.unit_norm Sample.default_matcher
             Sample.alice Sample.backend_job in
  count_rows 1 7 (DB.matches (_store_matches 1 [r] Sample.db)) = 1%nat ∧
  count_rows 1 3 (DB.matches (_store_matches 1 [r] Sample.db)) = 0%nat.
Proof.
  intros r.
  assert (NoDup (job_ids [r])) as Hnd.
  { apply NoDup_singleton. }
  split.
  - apply (store_matches_one_row_per_job 1 [r] Sample.db Hnd 7).
    apply list_elem_of_singleton. reflexivity.
  - apply (store_matches_one_row_per_job 1 [r] Sample.db Hnd 3).
    intros H%list_elem_of_singleton. vm_compute in H. discriminate.
Defined.

End RepositoryProofs.

Module SkillProofs.

Local Open Scope Q_scope.
Import EnhancedJobMatcher Props.



Lemma elem_of_description_skills job s :
  s ∈ description_skills job ↔
  ∃ text, Py.truthy_str (Job.description job) = Some text
          ∧ s ∈ common_skills ∧ Py.contains s (Py.lower text) = true.
Proof.
  unfold description_skills, _extract_skills_from_text.
  destruct (Py.truthy_str (Job.description job)) as [text|].
  - rewrite elem_of_list_to_set, list_elem_of_filter. naive_solver.
  - split; [set_solver|]. by intros (? & ? & _).
Qed.

(** The list made of a set has the members of the set, each once, whatever
    the iteration order. *)
Lemma list_of_length (o : Py.set_order) (X : gset string) :
  length (Py.list_of o X) = size X.
Proof. apply Permutation_length, Py.list_of_perm. Qed.

Lemma elem_of_list_of (o : Py.set_order) (X : gset string) s :
  s ∈ Py.list_of o X ↔ s ∈ X.
Proof. by rewrite (Py.list_of_perm o X), elem_of_elements. Qed.





End SkillProofs.

Module SalaryProofs.

Local Open Scope Q_scope.
Import EnhancedJobMatcher Props.

Lemma ge_true a b : Py.ge a b = true ↔ b <= a.
Proof. apply Qle_bool_iff. Qed.

Lemma le_true a b : Py.le a b = true ↔ a <= b.
Proof. apply Qle_bool_iff. Qed.

Lemma gt_true a b : Py.gt a b = true ↔ b < a.
Proof.
  unfold Py.gt. rewrite negb_true_iff, <- not_true_iff_false, Qle_bool_iff.
  split; [apply Qnot_le_lt|apply Qlt_not_le].
Qed.

Lemma lt_true a b : Py.lt a b = true ↔ a < b.
Proof.
  unfold Py.lt. rewrite negb_true_iff, <- not_true_iff_false, Qle_bool_iff.
  split; [apply Qnot_le_lt|apply Qlt_not_le].
Qed.

Lemma ge_false a b : Py.ge a b = false ↔ a < b.
Proof.
  rewrite <- not_true_iff_false, ge_true.
  split; [apply Qnot_le_lt|apply Qlt_not_le].
Qed.

Lemma le_false a b : Py.le a b = false ↔ b < a.
Proof.
  rewrite <- not_true_iff_false, le_true.
  split; [apply Qnot_le_lt|apply Qlt_not_le].
Qed.

Lemma gt_false a b : Py.gt a b = false ↔ a <= b.
Proof. unfold Py.gt. by rewrite negb_false_iff, Qle_bool_iff. Qed.

Lemma lt_false a b : Py.lt a b = false ↔ b <= a.
Proof. unfold Py.lt. by rewrite negb_false_iff, Qle_bool_iff. Qed.

(** With salary data on both sides the score is a function of the two
    ranges. *)
Lemma salary_match_of_ranges user job user_min user_max job_min job_max :
  user_salary_range user = Some (user_min, user_max) →
  job_salary_range job = Some (job_min, job_max) →
  _calculate_salary_match user job
  = range_score user_min user_max job_min job_max.
Proof.
  unfold user_salary_range, job_salary_range, _calculate_salary_match.
  destruct (Py.truthy_int (UserProfile.preferred_salary_min user)); [|done].
  destruct (Py.truthy_int (Job.salary_min job)); [|done].
  by intros [= <- <-] [= <- <-].
Qed.

Lemma salary_match_default user job :
  user_salary_range user = None ∨ job_salary_range job = None →
  _calculate_salary_match user job = 0.7.
Proof.
  unfold user_salary_range, job_salary_range, _calculate_salary_match.
  destruct (Py.truthy_int (UserProfile.preferred_salary_min user));
    destruct (Py.truthy_int (Job.salary_min job)); naive_solver.
Qed.

Lemma range_score_overlap user_min user_max job_min job_max :
  user_min <= job_max → job_min <= user_max → user_min < user_max →
  range_score user_min user_max job_min job_max
  = Qmin 1.0 ((Qmin user_max job_max - Qmax user_min job_min)
            / (user_max - user_min)).
Proof.
  intros H1 H2 H3. unfold range_score.
  apply ge_true in H1 as ->. apply le_true in H2 as ->. simpl.
  assert (Py.gt (user_max - user_min) 0 = true) as ->; [|done].
  apply gt_true. lra.
Qed.

Lemma range_score_no_width user_min user_max job_min job_max :
  user_min <= job_max → job_min <= user_max → user_max <= user_min →
  range_score user_min user_max job_min job_max = 1.0.
Proof.
  intros H1 H2 H3. unfold range_score.
  apply ge_true in H1 as ->. apply le_true in H2 as ->. simpl.
  assert (Py.gt (user_max - user_min) 0 = false) as ->; [|done].
  apply gt_false. lra.
Qed.

Lemma range_score_above user_min user_max job_min job_max :
  user_min <= user_max → job_min <= job_max → user_max < job_min →
  range_score user_min user_max job_min job_max = 1.0.
Proof.
  intros H1 H2 H3. unfold range_score.
  assert (Py.ge job_max user_min = true) as -> by (apply ge_true; lra).
  assert (Py.le job_min user_max = false) as -> by (by apply le_false).
  simpl.
  assert (Py.lt job_max user_min = false) as ->; [|done].
  apply lt_false. lra.
Qed.

Lemma range_score_below user_min user_max job_min job_max :
  job_max < user_min →
  range_score user_min user_max job_min job_max
  = Qmax 0.2 (1.0 - (user_min - job_max) / user_min).
Proof.
  intros H. unfold range_score.
  assert (Py.ge job_max user_min = false) as -> by (by apply ge_false).
  simpl. by apply lt_true in H as ->.
Qed.

(** Below the candidate's floor, a lower job ceiling never scores
    higher. *)
Lemma range_score_below_monotone user_min user_max job_min job_max
    job_min' job_max' :
  0 < user_min → job_max' <= job_max → job_max < user_min →
  range_score user_min user_max job_min' job_max'
  <= range_score user_min user_max job_min job_max.
Proof.
  intros Hpos Hle Hlt.
  rewrite !range_score_below by lra.
  apply Q.max_le_compat_l.
  assert ((user_min - job_max) / user_min <= (user_min - job_max') / user_min);
    [|lra].
  apply Qmult_le_compat_r; [lra|].
  apply Qlt_le_weak. by apply Qinv_lt_0_compat.
Qed.

(** C5: with salary data on both sides, (a) overlapping ranges score the
    overlap width over the candidate's range width, capped at 1 (and 1
    where the candidate's range has no width to divide by); (b) a job
    floor above the candidate's ceiling scores 1; (c) a job ceiling below
    the candidate's floor scores 1 minus the relative gap, never below
    0.2, and a lower ceiling never scores higher; (d) without salary data
    on either side the score is 0.7; and the job range [120000,150000]
    against the candidate range [100000,130000] scores one third. *)
Theorem salary_match_score_spec user job :
  let score := _calculate_salary_match user job in
  (∀ user_min user_max job_min job_max,
     user_salary_range user = Some (user_min, user_max) →
     job_salary_range job = Some (job_min, job_max) →
     (user_min <= job_max → job_min <= user_max → user_min < user_max →
      score = Qmin 1.0 ((Qmin user_max job_max - Qmax user_min job_min)
                      / (user_max - user_min)))
     ∧ (user_min <= job_max → job_min <= user_max → user_max <= user_min →
        score = 1.0)
     ∧ (user_min <= user_max → job_min <= job_max → user_max < job_min →
        score = 1.0)
     ∧ (job_max < user_min →
        score = Qmax 0.2 (1.0 - (user_min - job_max) / user_min)
        ∧ 0.2 <= score
        ∧ ∀ job' job_min' job_max',
            job_salary_range job' = Some (job_min', job_max') →
            0 < user_min → job_max' <= job_max →
            _calculate_salary_match user job' <= score))
  ∧ (user_salary_range user = None ∨ job_salary_range job = None →
     score = 0.7)
  ∧ (UserProfile.preferred_salary_min user = Some 100000%Z →
     UserProfile.preferred_salary_max user = Some 130000%Z →
     Job.salary_min job = Some 120000%Z →
     Job.salary_max job = Some 150000%Z →
     score == 1 # 3 ∧ 0.333 <= score ∧ score <= 0.334).
Proof.
  intros score. subst score. split; [|split].
  - intros user_min user_max job_min job_max Hu Hj.
    rewrite (salary_match_of_ranges _ _ _ _ _ _ Hu Hj).
    split; [apply range_score_overlap|].
    split; [apply range_score_no_width|].
    split; [apply range_score_above|].
    intros Hlt. split; [by apply range_score_below|].
    split; [rewrite range_score_below by done; apply Q.le_max_l|].
    intros job' job_min' job_max' Hj' Hpos Hle.
    rewrite (salary_match_of_ranges _ _ _ _ _ _ Hu Hj').
    by apply range_score_below_monotone.
  - apply salary_match_default.
  - intros Hu1 Hu2 Hj1 Hj2. unfold _calculate_salary_match.
    rewrite Hu1, Hu2, Hj1, Hj2. by vm_compute.
Qed.

Lemma salary_match_score_spec_witness :
  _calculate_salary_match Sample.alice Sample.backend_job == 1 # 3.
Proof.
  pose proof (salary_match_score_spec Sample.alice Sample.backend_job)
    as (Hranges & _ & Hscenario).
  destruct (Hranges 100000 130000 120000 150000 eq_refl eq_refl)
    as (Hoverlap & _).
  rewrite Hoverlap.
  - reflexivity.
  - vm_compute. discriminate.
  - vm_compute. discriminate.
  - reflexivity.
Defined.

End SalaryProofs.

Module ExperienceProofs.

Local Open Scope Q_scope.
Import EnhancedJobMatcher Props.

(** Every range of the table has its lower bound at or below its upper
    bound, and no level is the empty string. *)
Lemma level_ranges_wf level lo hi :
  level_ranges !! level = Some (lo, hi) → (lo <= hi)%Z ∧ level ≠ "".
Proof.
  unfold level_ranges. intros H%elem_of_list_to_map_2.
  repeat (apply elem_of_cons in H as [H|H]; [simplify_eq; split; [lia|done]|]).
  by apply elem_of_nil in H.
Qed.

(** With a non-zero number of years and a level of the table, the score is
    1 inside the range, falls by 0.2 per year below it down to 0.3, and by
    0.1 per year above it down to 0.6. *)
Lemma experience_match_nonzero_years user job years level lo hi :
  UserProfile.experience_years user = Some years → years ≠ 0%Z →
  Job.experience_level job = Some level →
  level_ranges !! level = Some (lo, hi) →
  let score := _calculate_experience_match user job in
  ((lo <= years <= hi)%Z → score = 1.0)
  ∧ ((years < lo)%Z → score = Qmax 0.3 (1.0 - Py.of_int (lo - years) * 0.2))
  ∧ ((hi < years)%Z → score = Qmax 0.6 (1.0 - Py.of_int (years - hi) * 0.1)).
Proof.
  intros Hy Hnz Hl Hr score. subst score.
  destruct (level_ranges_wf _ _ _ Hr) as [Hwf Hne].
  unfold _calculate_experience_match. rewrite Hy, Hl.
  assert (Py.truthy_int (Some years) = Some years) as ->.
  { by destruct years. }
  assert (Py.truthy_str (Some level) = Some level) as ->.
  { by destruct level. }
  rewrite Hr. simpl.
  split; [|split]; intros H.
  - assert ((lo <=? years)%Z = true) as -> by lia.
    by assert ((years <=? hi)%Z = true) as -> by lia.
  - assert ((lo <=? years)%Z = false) as -> by lia. simpl.
    by assert ((years <? lo)%Z = true) as -> by lia.
  - assert ((years <=? hi)%Z = false) as -> by lia.
    rewrite andb_false_r.
    by assert ((years <? lo)%Z = false) as -> by lia.
Qed.

(** C6 fails on the code for zero years: a candidate with no experience
    against an entry-level posting, whose range (0, 2) contains 0, gets
    the default 0.7 and not 1.0; against a mid-level posting, three years
    short of the range (3, 6), the same 0.7 and not 0.4. *)
Theorem experience_match_zero_years :
  UserProfile.experience_years Sample.graduate = Some 0%Z
  ∧ level_ranges !! "entry" = Some (0, 2)%Z
  ∧ _calculate_experience_match Sample.graduate Sample.entry_job = 0.7
  ∧ level_ranges !! "mid" = Some (3, 6)%Z
  ∧ _calculate_experience_match Sample.graduate Sample.mid_job = 0.7
  ∧ Qmax 0.3 (1.0 - Py.of_int (3 - 0) * 0.2) == 0.4.
Proof. by vm_compute. Qed.

End ExperienceProofs.

Module VectorStoreProofs.

Local Open Scope Q_scope.
Import FaissStore Props.

(** *** The index: best-first rows *)

Lemma insert_desc_elem_of x y l :
  y ∈ Faiss.insert_desc x l ↔ y = x ∨ y ∈ l.
Proof.
  induction l as [|z l IH]; simpl.
  - rewrite list_elem_of_singleton. set_solver.
  - destruct (Py.ge x.1 z.1); [set_solver|].
    rewrite elem_of_cons, IH, elem_of_cons. naive_solver.
Qed.

Lemma insert_desc_sorted x l :
  StronglySorted by_distance l →
  StronglySorted by_distance (Faiss.insert_desc x l).
Proof.
  induction 1 as [|z l Hs IH Hz]; simpl.
  - repeat constructor.
  - destruct (Py.ge x.1 z.1) eqn:E.
    + apply Qle_bool_iff in E. constructor; [by constructor|].
      constructor; [done|].
      eapply Forall_impl; [exact Hz|]. unfold by_distance. intros w Hw.
      by eapply Qle_trans.
    + constructor; [done|]. apply Forall_forall. intros w Hw.
      apply insert_desc_elem_of in Hw as [->|Hw].
      * unfold by_distance. apply Qlt_le_weak, Qnot_le_lt. intros Hle.
        apply Qle_bool_iff in Hle. unfold Py.ge in E. congruence.
      * by eapply Forall_forall in Hz.
Qed.

Lemma sort_desc_sorted l : StronglySorted by_distance (Faiss.sort_desc l).
Proof.
  induction l as [|x l IH]; simpl; [constructor|].
  by apply insert_desc_sorted.
Qed.

Lemma sorted_take {A} (R : relation A) k (l : list A) :
  StronglySorted R l → StronglySorted R (take k l).
Proof.
  intros Hs. revert k. induction Hs as [|x l Hs IH Hx]; intros [|k]; simpl;
    try constructor; [apply IH|].
  by apply Forall_take.
Qed.

(** *** The store: filtering a row *)

Local Arguments hit_of : simpl never.

Lemma hit_of_Some self dist idx h :
  hit_of self (dist, idx) = Some h → score h = dist ∧ id h ∈ ids self.
Proof.
  unfold hit_of. destruct (_ || _); [done|].
  destruct (ids self !! Z.to_nat idx) as [i|] eqn:E; [|done].
  intros [= <-]. split; [done|]. simpl. by eapply list_elem_of_lookup_2.
Qed.

Lemma omap_length_le {A B} (f : A → option B) (l : list A) :
  (length (omap f l) <= length l)%nat.
Proof.
  induction l as [|x l IH]; csimpl; [done|]. destruct (f x); csimpl; lia.
Qed.

Lemma hits_of_padding self n :
  omap (hit_of self) (replicate n (- Faiss.FLT_MAX, (-1)%Z)) = [].
Proof. induction n as [|n IH]; [done|]. csimpl. exact IH. Qed.

Lemma hits_descending self (l : list (Q * Z)) :
  StronglySorted by_distance l →
  descending (score <$> omap (hit_of self) l).
Proof.
  induction 1 as [|[dist idx] l Hs IH Hx]; csimpl; [constructor|].
  destruct (hit_of self (dist, idx)) as [h|] eqn:E; [|done].
  rewrite fmap_cons. constructor; [done|].
  apply hit_of_Some in E as [-> _].
  apply Forall_fmap, Forall_forall. intros h' Hh'.
  apply list_elem_of_omap in Hh' as ([dist' idx'] & Hin & Hh').
  apply hit_of_Some in Hh' as [Hsc _]. simpl. rewrite Hsc.
  rewrite Forall_forall in Hx. exact (Hx _ Hin).
Qed.

(** The hits of one query row: at most [k], best first, known ids. *)
Lemma row_hits_spec self k q :
  let row := Faiss.search_row (index self) k q in
  let hits := row_hits self (row.*1) (row.*2) in
  (length hits <= k)%nat
  ∧ descending (score <$> hits)
  ∧ ∀ h, h ∈ hits → id h ∈ ids self.
Proof.
  intros row hits. subst hits. unfold row_hits. rewrite zip_fst_snd.
  subst row. unfold Faiss.search_row.
  rewrite omap_app, hits_of_padding, app_nil_r.
  split; [|split].
  - etrans; [apply omap_length_le|]. rewrite length_take. lia.
  - apply hits_descending, sorted_take, sort_desc_sorted.
  - intros h Hh. apply list_elem_of_omap in Hh as ([dist idx] & _ & Hh).
    by apply hit_of_Some in Hh as [_ ?].
Qed.

Lemma zip_with_fmap_same {A B C D} (f : B → C → D) (g : A → B) (h : A → C)
    (l : list A) :
  zip_with f (g <$> l) (h <$> l) = (λ x, f (g x) (h x)) <$> l.
Proof. induction l as [|x l IH]; [done|]. csimpl. by rewrite IH. Qed.

Lemma search_rows self vec top_k results :
  search self vec top_k = Py.Return results →
  Forall
    (λ hits, (length hits <= top_k)%nat
             ∧ descending (score <$> hits)
             ∧ ∀ h, h ∈ hits → id h ∈ ids self)
    results.
Proof.
  unfold search. destruct (Faiss.ntotal (index self) =? 0)%nat.
  - intros [= <-]. repeat constructor; simpl; [lia|]. by intros h ?%elem_of_nil.
  - unfold Faiss.search. destruct (negb _); [done|].
    destruct (top_k =? 0)%nat; [done|].
    intros [= <-]. rewrite zip_with_fmap_same.
    rewrite <- list_fmap_compose.
    apply Forall_fmap, Forall_forall. intros q _. apply row_hits_spec.
Qed.

(** *** The store: insertions *)

Lemma add_Return self vecs new_ids fs self' fs' :
  add self vecs new_ids fs = Py.Return (self', fs') →
  Faiss.has_dim (Faiss.d (index self)) (as_rows vecs) = true
  ∧ ids self' = ids self ++ new_ids
  ∧ Faiss.d (index self') = Faiss.d (index self).
Proof.
  unfold add, Faiss.add.
  destruct (Faiss.has_dim _ _); [|done]. by intros [= <- <-].
Qed.

Lemma add_Raise self vecs new_ids fs e :
  add self vecs new_ids fs = Py.Raise e →
  Faiss.has_dim (Faiss.d (index self)) (as_rows vecs) = false.
Proof. unfold add, Faiss.add. by destruct (Faiss.has_dim _ _). Qed.

Lemma add_all_ids self fs ops :
  ids (add_all self fs ops).1
  = ids self ++ inserted_ids (Faiss.d (index self)) ops
  ∧ Faiss.d (index (add_all self fs ops).1) = Faiss.d (index self).
Proof.
  revert self fs. induction ops as [|[vecs new_ids] ops IH]; intros self fs.
  - unfold inserted_ids. simpl. by rewrite app_nil_r.
  - simpl. unfold inserted_ids. rewrite filter_cons. fold (inserted_ids).
    destruct (add self vecs new_ids fs) as [[self' fs']|e] eqn:E.
    + apply add_Return in E as (Hdim & Hids & Hd).
      destruct (IH self' fs') as [-> ->]. rewrite Hids, Hd.
      destruct (decide _) as [_|Hn]; [|by destruct Hn].
      split; [|done]. rewrite fmap_cons. simpl. by rewrite (assoc_L (++)).
    + apply add_Raise in E. destruct (IH self fs) as [-> ->].
      destruct (decide _) as [Hy|_]; [|done]. unfold accepted in Hy.
      simpl in Hy. congruence.
Qed.

(** C3: on the store reached from a new one by any sequence of [add]
    calls, every result row of [search] has at most [top_k] entries, scores
    in non-increasing order, and only ids that were inserted; a search with
    a query of the store's dimension and a positive [top_k] returns; and on
    an empty index every search returns the single empty row, without an
    error. *)
Theorem search_spec d path id_path fs ops vec top_k :
  let self := (add_all (fresh d path id_path) fs ops).1 in
  (∀ results,
     search self vec top_k = Py.Return results →
     Forall
       (λ hits, (length hits <= top_k)%nat
                ∧ descending (score <$> hits)
                ∧ ∀ h, h ∈ hits → id h ∈ inserted_ids d ops)
       results)
  ∧ (Faiss.has_dim d (as_rows vec) = true → (0 < top_k)%nat →
     ∃ results, search self vec top_k = Py.Return results)
  ∧ (∀ empty : t, Faiss.ntotal (index empty) = 0%nat →
     search empty vec top_k = Py.Return [[]])
  ∧ Faiss.ntotal (index (fresh d path id_path)) = 0%nat.
Proof.
  intros self.
  destruct (add_all_ids (fresh d path id_path) fs ops) as [Hids Hd].
  fold self in Hids, Hd. simpl in Hids, Hd.
  split; [|split; [|split]].
  - intros results Hs. apply search_rows in Hs.
    eapply Forall_impl; [exact Hs|]. intros hits (? & ? & Hin).
    split; [done|]. split; [done|]. intros h Hh. rewrite <- Hids. by apply Hin.
  - intros Hdim Hk. unfold search.
    destruct (Faiss.ntotal (index self) =? 0)%nat; [by eexists|].
    unfold Faiss.search. rewrite Hd, Hdim. simpl.
    destruct top_k; [lia|]. simpl. by eexists.
  - intros empty He. unfold search. by rewrite He.
  - done.
Qed.

Lemma search_spec_witness :
  ∃ results,
    search (add_all (fresh 2 "index" "ids") ∅ Sample.insertions).1
      (Array1 [1; 2]) 2
    = Py.Return results.
Proof.
  apply (search_spec 2 "index" "ids" ∅ Sample.insertions (Array1 [1; 2]) 2).
  - reflexivity.
  - lia.
Defined.

End VectorStoreProofs.

Module LoadProofs.

Import FaissStore Props.

Lemma init_after_makedirs tree d path id_path fs :
  makedirs tree (dirname path) = Py.Return tt →
  ∃ self,
    __init__ tree d path id_path fs = Py.Return self
    ∧ (unreadable fs path id_path → self = fresh d path id_path)
    ∧ (∀ index ids,
         read_index fs path = Py.Return index →
         pickle_load fs id_path = Py.Return ids →
         self = {| path := path; id_path := id_path; d := d;
                   index := index; ids := ids |}).
Proof.
  intros Hmk. unfold __init__. rewrite Hmk. simpl.
  destruct (bool_decide (is_Some (fs !! path))) eqn:Hp;
    destruct (bool_decide (is_Some (fs !! id_path))) eqn:Hi; simpl.
  - eexists. split; [reflexivity|]. split.
    + intros [[e He]|[e He]].
      * by rewrite He.
      * rewrite He. by destruct (read_index fs path).
    + intros index ids -> ->. reflexivity.
  - apply bool_decide_eq_false in Hi.
    eexists. split; [reflexivity|]. split; [done|].
    intros index ids _ Hl. unfold pickle_load in Hl.
    destruct (fs !! id_path) as [f|]; [|done]. destruct Hi. by eexists.
  - apply bool_decide_eq_false in Hp.
    eexists. split; [reflexivity|]. split; [done|].
    intros index ids Hr _. unfold read_index in Hr.
    destruct (fs !! path) as [f|]; [|done]. destruct Hp. by eexists.
  - apply bool_decide_eq_false in Hp.
    eexists. split; [reflexivity|]. split; [done|].
    intros index ids Hr _. unfold read_index in Hr.
    destruct (fs !! path) as [f|]; [|done]. destruct Hp. by eexists.
Qed.

(** C7, as stated, fails: at the default paths, with the data directory
    in place, an index file that cannot be read, and an index of two
    vectors next to a list of one id, both leave the constructor with a
    store and nothing signalled. *)
Lemma init_corrupted_returns :
  makedirs Sample.writable_tree (dirname default_path) = Py.Return tt
  ∧ (corrupted Sample.garbled_fs default_path default_id_path
     ∧ __init__ Sample.writable_tree 2 default_path default_id_path
         Sample.garbled_fs
       = Py.Return (fresh 2 default_path default_id_path))
  ∧ (corrupted Sample.mismatched_fs default_path default_id_path
     ∧ ∃ self,
         __init__ Sample.writable_tree 2 default_path default_id_path
           Sample.mismatched_fs = Py.Return self
         ∧ Faiss.ntotal (index self) = 2%nat ∧ length (ids self) = 1%nat).
Proof.
  split; [reflexivity|]. split; split.
  - split; [by eexists|]. split; [by eexists|].
    left. left. by eexists.
  - reflexivity.
  - split; [by eexists|]. split; [by eexists|].
    right. eexists _, _. split; [reflexivity|]. split; [reflexivity|].
    vm_compute. discriminate.
  - eexists. split; [reflexivity|]. by split.
Qed.

(** C7 (amended): the constructor signals nothing about the files it
    loads.  Once the directory of the index file is in place, it returns a
    store: when both files exist and reading either of them fails, it
    starts silently from a new, empty index and an empty id list; when
    both can be read it takes them as they are, whether or not the number
    of vectors equals the number of ids.  The one error that leaves the
    constructor is that of making the directory, raised before any file is
    looked at; a path without a directory part always ends so, with
    FileNotFoundError. *)
Theorem init_signals_no_corruption tree d path id_path fs :
  (makedirs tree (dirname path) = Py.Return tt →
   ∃ self,
     __init__ tree d path id_path fs = Py.Return self
     ∧ (unreadable fs path id_path → self = fresh d path id_path)
     ∧ (∀ index ids,
          read_index fs path = Py.Return index →
          pickle_load fs id_path = Py.Return ids →
          self = {| path := path; id_path := id_path; d := d;
                    index := index; ids := ids |}))
  ∧ (∀ e, makedirs tree (dirname path) = Py.Raise e →
          __init__ tree d path id_path fs = Py.Raise e)
  ∧ (dirname path = "" →
     __init__ tree d path id_path fs = Py.Raise "FileNotFoundError").
Proof.
  split; [apply init_after_makedirs|]. split.
  - intros e He. unfold __init__. by rewrite He.
  - intros He. unfold __init__, makedirs. by rewrite He.
Qed.

Lemma init_signals_no_corruption_witness :
  __init__ Sample.writable_tree 2 default_path default_id_path
    Sample.garbled_fs
  = Py.Return (fresh 2 default_path default_id_path)
  ∧ __init__ Sample.read_only_tree 2 default_path default_id_path
      Sample.garbled_fs
    = Py.Raise "PermissionError"
  ∧ __init__ Sample.writable_tree 2 "index" "ids" Sample.garbled_fs
    = Py.Raise "FileNotFoundError".
Proof.
  split; [|split].
  - destruct (init_signals_no_corruption Sample.writable_tree 2
                default_path default_id_path Sample.garbled_fs)
      as (Hret & _ & _).
    destruct (Hret eq_refl) as (self & Hinit & Hfresh & _).
    rewrite Hinit, Hfresh.
    + reflexivity.
    + left. exists "RuntimeError". reflexivity.
  - apply (init_signals_no_corruption Sample.read_only_tree 2
             default_path default_id_path Sample.garbled_fs).
    reflexivity.
  - apply (init_signals_no_corruption Sample.writable_tree 2
             "index" "ids" Sample.garbled_fs).
    reflexivity.
Defined.

End LoadProofs.

Module PipelineProofs.

Local Open Scope Q_scope.
Import EnhancedJobMatcher Props Facts.

Lemma semantic_score_of_record norm self user job :
  MatchData.semantic_score (_calculate_match_score norm self user job)
  = _calculate_semantic_score norm self user job.
Proof.
  unfold _calculate_match_score.
  by destruct (_calculate_skill_match self user job) as [[? ?] ?].
Qed.

(** A failure to embed the profile text is caught: the semantic score is
    the default. *)
Lemma semantic_score_default norm self user job e :
  encoder self [user_text user] = Py.Raise e →
  _calculate_semantic_score norm self user job = 0.5.
Proof. intros He. unfold _calculate_semantic_score. by rewrite He. Qed.

Lemma insert_by_score_elem_of x y l :
  y ∈ insert_by_score x l ↔ y = x ∨ y ∈ l.
Proof.
  induction l as [|z l IH]; simpl.
  - rewrite list_elem_of_singleton. set_solver.
  - destruct (Py.ge _ _); [by rewrite elem_of_cons|].
    rewrite elem_of_cons, IH, elem_of_cons. naive_solver.
Qed.

Lemma sort_by_score_desc_elem_of y l :
  y ∈ sort_by_score_desc l ↔ y ∈ l.
Proof.
  induction l as [|x l IH]; simpl; [done|].
  by rewrite insert_by_score_elem_of, IH, elem_of_cons.
Qed.

Lemma slice_to_elem_of {A} (x : A) l k : x ∈ Py.slice_to l k → x ∈ l.
Proof.
  unfold Py.slice_to. destruct (0 <=? k)%Z; apply subseteq_take.
Qed.

(** What one run stores does not depend on the rows already stored. *)
Lemma store_matches_twice user_id matches db :
  _store_matches user_id matches (_store_matches user_id matches db)
  = _store_matches user_id matches db.
Proof.
  unfold _store_matches. simpl. f_equal.
  rewrite filter_app.
  assert (filter (λ m, Match.user_id m ≠ user_id) (match_row user_id <$> matches) = [])
    as ->.
  { induction matches as [|r matches IH]; [done|].
    rewrite fmap_cons, filter_cons. by destruct (decide _). }
  rewrite app_nil_r. f_equal.
  induction (DB.matches db) as [|m table IH]; [done|].
  rewrite filter_cons. destruct (decide _) as [Hne|Heq]; [|done].
  rewrite filter_cons. destruct (decide _); [|done]. by rewrite IH.
Qed.

Lemma job_id_of_record norm self user job :
  MatchData.job_id (_calculate_match_score norm self user job) = Job.id job.
Proof.
  unfold _calculate_match_score.
  by destruct (_calculate_skill_match self user job) as [[? ?] ?].
Qed.

Lemma insert_by_score_perm x l : insert_by_score x l ≡ₚ x :: l.
Proof.
  induction l as [|y l IH]; simpl; [done|].
  destruct (Py.ge _ _); [done|]. rewrite IH. apply Permutation_swap.
Qed.

Lemma sort_by_score_desc_perm l : sort_by_score_desc l ≡ₚ l.
Proof.
  induction l as [|x l IH]; simpl; [done|].
  by rewrite insert_by_score_perm, IH.
Qed.

Lemma slice_to_sublist {A} (l : list A) k : Py.slice_to l k `sublist_of` l.
Proof. unfold Py.slice_to. destruct (0 <=? k)%Z; apply sublist_take. Qed.

(** The list a run returns is ordered by overall score, largest first. *)
Lemma insert_by_score_sorted x l :
  StronglySorted by_overall_score l →
  StronglySorted by_overall_score (insert_by_score x l).
Proof.
  induction 1 as [|z l Hs IH Hz]; simpl.
  - repeat constructor.
  - destruct (Py.ge _ _) eqn:E.
    + apply Qle_bool_iff in E. constructor; [by constructor|].
      constructor; [done|].
      eapply Forall_impl; [exact Hz|]. unfold by_overall_score. intros w Hw.
      by eapply Qle_trans.
    + constructor; [done|]. apply Forall_forall. intros w Hw.
      apply insert_by_score_elem_of in Hw as [->|Hw].
      * unfold by_overall_score. apply Qlt_le_weak, Qnot_le_lt. intros Hle.
        apply Qle_bool_iff in Hle. unfold Py.ge in E. congruence.
      * rewrite Forall_forall in Hz. by apply Hz.
Qed.

Lemma sort_by_score_desc_sorted l :
  StronglySorted by_overall_score (sort_by_score_desc l).
Proof.
  induction l as [|x l IH]; simpl; [constructor|].
  by apply insert_by_score_sorted.
Qed.

(** With job ids that are unique in the job table, the list a run stores
    names every job at most once, so the run leaves exactly one row for
    each job it returns and none for any other job. *)
Lemma run_one_row_per_job norm self user_id top_k db user matches db' :
  NoDup (Job.id <$> DB.jobs db) →
  head (filter (λ u, UserProfile.id u = user_id) (DB.user_profiles db))
  = Some user →
  match_user_to_jobs norm self user_id top_k db = (Py.Return matches, db') →
  NoDup (job_ids matches)
  ∧ ∀ job_id,
      count_rows user_id job_id (DB.matches db')
      = if bool_decide (job_id ∈ job_ids matches) then 1%nat else 0%nat.
Proof.
  intros Hnd Hu. unfold match_user_to_jobs. rewrite Hu.
  intros [= <- <-].
  match goal with |- NoDup ?l ∧ _ => assert (NoDup l) as Hres end.
  { unfold job_ids.
    eapply sublist_NoDup; [|apply fmap_sublist, slice_to_sublist].
    rewrite sort_by_score_desc_perm.
    eapply sublist_NoDup; [|apply fmap_sublist, sublist_filter].
    rewrite <- list_fmap_compose.
    erewrite (list_fmap_ext _ Job.id); [|intros ? job _; apply job_id_of_record].
    eapply sublist_NoDup; [done|apply fmap_sublist, sublist_filter]. }
  split; [done|]. intros job_id.
  rewrite RepositoryProofs.store_matches_count. case_bool_decide as Hin.
  - by apply RepositoryProofs.occurrences_nodup.
  - by rewrite RepositoryProofs.occurrences_absent.
Qed.

(** C8, as stated, fails: with an encoder that raises on the profile
    text, the run returns a list, drops the row stored before and stores
    the new one. *)
Lemma encoding_failure_still_persists :
  let run := match_user_to_jobs Sample.unit_norm Sample.offline_matcher
               1 50 Sample.db in
  encoder Sample.offline_matcher [user_text Sample.alice]
  = Py.Raise "EncodingError"
  ∧ (∃ m, run.1 = Py.Return [m] ∧ MatchData.job_id m = 7%Z)
  ∧ Match.job_id <$> DB.matches Sample.db = [3%Z]
  ∧ Match.job_id <$> DB.matches run.2 = [7%Z]
  ∧ DB.matches run.2 ≠ DB.matches Sample.db.
Proof.
  split; [reflexivity|]. split; [by eexists|].
  split; [reflexivity|]. split; [reflexivity|].
  intros H. apply (f_equal (fmap Match.job_id)) in H. by vm_compute in H.
Qed.

(** C8 (amended): when the encoder raises on the profile text, the
    failure is caught inside the semantic sub-score, which is 0.5 for
    every job; the run does not abort: it returns its list, every record
    of which has semantic score 0.5, and replaces the user's stored rows
    by the rows of that list. *)
Theorem encoding_failure_defaults norm self user_id top_k db user e :
  head (filter (λ u, UserProfile.id u = user_id) (DB.user_profiles db))
  = Some user →
  encoder self [user_text user] = Py.Raise e →
  ∃ matches,
    match_user_to_jobs norm self user_id top_k db
    = (Py.Return matches, _store_matches user_id matches db)
    ∧ Forall (λ m, MatchData.semantic_score m = 0.5) matches.
Proof.
  intros Hu He. unfold match_user_to_jobs. rewrite Hu.
  eexists. split; [reflexivity|].
  apply Forall_forall. intros m Hm.
  apply slice_to_elem_of in Hm. rewrite sort_by_score_desc_elem_of in Hm.
  apply list_elem_of_filter in Hm as [_ Hm].
  apply list_elem_of_fmap in Hm as (job & -> & _).
  rewrite semantic_score_of_record. by eapply semantic_score_default.
Qed.

Lemma encoding_failure_defaults_witness :
  ∃ matches,
    match_user_to_jobs Sample.unit_norm Sample.offline_matcher 1 50 Sample.db
    = (Py.Return matches, _store_matches 1 matches Sample.db)
    ∧ Forall (λ m, MatchData.semantic_score m = 0.5) matches.
Proof.
  apply (encoding_failure_defaults Sample.unit_norm Sample.offline_matcher
           1 50 Sample.db Sample.alice "EncodingError").
  - reflexivity.
  - reflexivity.
Defined.

Lemma generate_match_reasons_length sem sk ex ms ms' job :
  ms' ≡ₚ ms →
  length (_generate_match_reasons sem sk ex ms' job)
  = length (_generate_match_reasons sem sk ex ms job).
Proof.
  intros Hp.
  assert (bool_decide (ms' = []) = bool_decide (ms = [])) as Hnil.
  { destruct ms as [|x ms].
    - apply Permutation_nil_r in Hp. by rewrite Hp.
    - destruct ms' as [|y ms']; [|done].
      symmetry in Hp. by apply Permutation_nil_r in Hp. }
  unfold _generate_match_reasons. rewrite Hnil.
  repeat match goal with
         | |- context [if ?c then _ else _] => destruct c
         | |- context [match ?c with Some _ => _ | None => _ end] => destruct c
         end; by rewrite ?length_app.
Qed.

Lemma alike_refl m : alike m m.
Proof. by repeat split. Qed.

Lemma alike_rows_refl r : alike_rows r r.
Proof. by repeat split. Qed.

Lemma match_score_alike norm self self' user job :
  same_settings self self' →
  alike (_calculate_match_score norm self user job)
    (_calculate_match_score norm self' user job).
Proof.
  intros (He & Hw & _).
  assert (_calculate_semantic_score norm self' user job
          = _calculate_semantic_score norm self user job) as Hsem.
  { unfold _calculate_semantic_score. by rewrite He. }
  unfold _calculate_match_score. rewrite Hsem, Hw.
  unfold _calculate_skill_match.
  case_bool_decide as Hj; [apply alike_refl|].
  pose proof (Py.list_of_perm (set_order self)
                (user_skill_set user ∩ job_skill_set job)) as Hm.
  pose proof (Py.list_of_perm (set_order self')
                (user_skill_set user ∩ job_skill_set job)) as Hm'.
  pose proof (Py.list_of_perm (set_order self)
                (job_skill_set job ∖ user_skill_set user)) as Hx.
  pose proof (Py.list_of_perm (set_order self')
                (job_skill_set job ∖ user_skill_set user)) as Hx'.
  assert (length (Py.list_of (set_order self')
                    (user_skill_set user ∩ job_skill_set job))
          = length (Py.list_of (set_order self)
                      (user_skill_set user ∩ job_skill_set job))) as Hlen.
  { by rewrite Hm, Hm'. }
  unfold alike. simpl. rewrite Hlen.
  repeat split; try done.
  - by rewrite Hm, Hm'.
  - by rewrite Hx, Hx'.
  - apply generate_match_reasons_length. by rewrite Hm, Hm'.
Qed.

Lemma filter_alike (bound : Q) l l' :
  Forall2 alike l l' →
  Forall2 alike
    (filter (λ m, Py.ge (MatchData.overall_score m) bound = true) l)
    (filter (λ m, Py.ge (MatchData.overall_score m) bound = true) l').
Proof.
  induction 1 as [|m m' l l' Hm _ IH]; [constructor|].
  rewrite !filter_cons.
  destruct Hm as (Hid & Hjob & Hov & Hrest). rewrite Hov.
  destruct (decide _); [|done].
  constructor; [|done]. by repeat split; try apply Hrest.
Qed.

Lemma insert_by_score_alike x x' l l' :
  alike x x' → Forall2 alike l l' →
  Forall2 alike (insert_by_score x l) (insert_by_score x' l').
Proof.
  intros Hx. induction 1 as [|m m' l l' Hm Hl IH]; simpl.
  - constructor; [done|constructor].
  - destruct Hx as (? & ? & Hov & ?). destruct Hm as (? & ? & Hov' & ?).
    rewrite Hov, Hov'.
    destruct (Py.ge _ _).
    + constructor; [done|]. by constructor.
    + constructor; [done|]. apply IH.
Qed.

Lemma sort_by_score_desc_alike l l' :
  Forall2 alike l l' →
  Forall2 alike (sort_by_score_desc l) (sort_by_score_desc l').
Proof.
  induction 1 as [|m m' l l' Hm _ IH]; simpl; [constructor|].
  by apply insert_by_score_alike.
Qed.

Lemma slice_to_alike l l' k :
  Forall2 alike l l' → Forall2 alike (Py.slice_to l k) (Py.slice_to l' k).
Proof.
  intros H. unfold Py.slice_to. rewrite (Forall2_length _ _ _ H).
  destruct (0 <=? k)%Z; by apply Forall2_take.
Qed.

Lemma match_row_alike user_id m m' :
  alike m m' → alike_rows (match_row user_id m) (match_row user_id m').
Proof.
  intros (? & ? & ? & ? & ? & ? & ? & ? & ? & ? & ? & ?).
  unfold alike_rows. simpl. by repeat split.
Qed.

(** C9, as stated, fails: the service is restarted between the two runs,
    with the same encoder, weights and thresholds.  The sets of skills are
    then listed in another order: for a candidate who has both skills of a
    posting, the second run returns and stores the matched skills and the
    reason that quotes them the other way round. *)
Lemma rerun_after_restart_differs :
  let first :=
    match_user_to_jobs Sample.unit_norm Sample.default_matcher 1 50
      Fixtures.fullstack_db in
  let second :=
    match_user_to_jobs Sample.unit_norm Fixtures.restarted_matcher 1 50
      first.2 in
  same_settings Sample.default_matcher Fixtures.restarted_matcher
  ∧ (∃ m m',
       first.1 = Py.Return [m] ∧ second.1 = Py.Return [m']
       ∧ MatchData.matched_skills m = ["react"; "python"]
       ∧ MatchData.matched_skills m' = ["python"; "react"]
       ∧ MatchData.reasons m !! 1%nat
         = Some "Strong skill match: react, python"
       ∧ MatchData.reasons m' !! 1%nat
         = Some "Strong skill match: python, react")
  ∧ second.1 ≠ first.1
  ∧ DB.matches second.2 ≠ DB.matches first.2.
Proof.
  split; [done|]. split; [|split].
  - eexists _, _. by repeat split.
  - intros H.
    apply (f_equal (λ r, match r with
                         | Py.Return l => MatchData.matched_skills <$> l
                         | Py.Raise _ => []
                         end)) in H.
    vm_compute in H. discriminate.
  - intros H. apply (f_equal (fmap Match.matched_skills)) in H.
    vm_compute in H. discriminate.
Qed.

Lemma store_matches_over user_id matches matches' db :
  DB.matches (_store_matches user_id matches'
                (_store_matches user_id matches db))
  = filter (λ m, Match.user_id m ≠ user_id) (DB.matches db)
    ++ (match_row user_id <$> matches').
Proof.
  unfold _store_matches. simpl. f_equal.
  rewrite filter_app.
  assert (filter (λ m, Match.user_id m ≠ user_id)
            (match_row user_id <$> matches) = []) as ->.
  { induction matches as [|r matches IH]; [done|].
    rewrite fmap_cons, filter_cons. by destruct (decide _). }
  rewrite app_nil_r.
  induction (DB.matches db) as [|m table IH]; [done|].
  rewrite filter_cons. destruct (decide _) as [Hne|Heq]; [|done].
  rewrite filter_cons. destruct (decide _); [|done]. by f_equal.
Qed.

Lemma store_matches_profiles user_id matches db :
  DB.user_profiles (_store_matches user_id matches db) = DB.user_profiles db.
Proof. reflexivity. Qed.

Lemma store_matches_jobs user_id matches db :
  DB.jobs (_store_matches user_id matches db) = DB.jobs db.
Proof. reflexivity. Qed.

(** C9 (amended): a second run on the state the first run left, by a
    matcher with the same encoder, weights and thresholds, returns a list
    of the same length that agrees with the first record by record on the
    posting, on the seven scores, on the matched and the missing skills up
    to their order and on the number of reasons; the stored rows agree in
    the same way, and on the user and the interaction columns.  When the
    second run also lists sets in the order of the first, as within one
    process, it returns the same list and leaves the same table. *)
Theorem match_user_to_jobs_rerun norm self self' user_id top_k db :
  same_settings self self' →
  let first := match_user_to_jobs norm self user_id top_k db in
  let second := match_user_to_jobs norm self' user_id top_k first.2 in
  (∃ l l', first.1 = Py.Return l ∧ second.1 = Py.Return l'
           ∧ Forall2 alike l l')
  ∧ Forall2 alike_rows (DB.matches first.2) (DB.matches second.2)
  ∧ (set_order self' = set_order self →
     second.1 = first.1 ∧ DB.matches second.2 = DB.matches first.2).
Proof.
  intros Hs first second. split; [|split].
  - subst second first. unfold match_user_to_jobs.
    destruct (head (filter _ (DB.user_profiles db))) as [user|] eqn:Hu; simpl.
    + rewrite Hu. eexists _, _. split; [done|]. split; [done|].
      destruct Hs as (He & Hw & Ht). rewrite Ht.
      apply slice_to_alike, sort_by_score_desc_alike, filter_alike.
      apply Forall2_fmap, Forall_Forall2_diag, Forall_forall. intros job _.
      by apply match_score_alike.
    + rewrite Hu. eexists _, _. split; [done|]. split; [done|]. constructor.
  - subst second first. unfold match_user_to_jobs.
    destruct (head (filter _ (DB.user_profiles db))) as [user|] eqn:Hu;
      cbn [fst snd].
    + rewrite store_matches_profiles, store_matches_jobs, Hu. cbn [fst snd].
      rewrite store_matches_over.
      destruct Hs as (He & Hw & Ht). rewrite Ht.
      apply Forall2_app.
      { apply Forall_Forall2_diag, Forall_forall. intros r _.
        apply alike_rows_refl. }
      apply Forall2_fmap.
      eapply Forall2_impl; [|intros m m'; apply match_row_alike].
      apply slice_to_alike, sort_by_score_desc_alike, filter_alike.
      apply Forall2_fmap, Forall_Forall2_diag, Forall_forall. intros job _.
      by apply match_score_alike.
    + rewrite Hu. apply Forall_Forall2_diag, Forall_forall. intros r _.
      apply alike_rows_refl.
  - intros Ho. assert (self' = self) as ->.
    { destruct Hs as (He & Hw & Ht).
      destruct self, self'. simpl in *. by subst. }
    assert (second = first) as ->; [|done].
    subst second first. unfold match_user_to_jobs.
    destruct (head (filter _ (DB.user_profiles db))) as [user|] eqn:Hu; simpl.
    + rewrite Hu. by rewrite store_matches_twice.
    + by rewrite Hu.
Qed.

Lemma match_user_to_jobs_rerun_witness :
  ∃ l l',
    (match_user_to_jobs Sample.unit_norm Sample.default_matcher 1 50
       Fixtures.fullstack_db).1 = Py.Return l
    ∧ (match_user_to_jobs Sample.unit_norm Fixtures.restarted_matcher 1 50
         (match_user_to_jobs Sample.unit_norm Sample.default_matcher 1 50
            Fixtures.fullstack_db).2).1 = Py.Return l'
    ∧ Forall2 alike l l'.
Proof.
  apply (match_user_to_jobs_rerun Sample.unit_norm Sample.default_matcher
           Fixtures.restarted_matcher 1 50 Fixtures.fullstack_db).
  by repeat split.
Defined.

(** C10: for a user id that no profile has, the run returns the empty
    list and leaves the database as it was. *)
Theorem unknown_user_no_effect norm self user_id top_k db :
  (∀ u, u ∈ DB.user_profiles db → UserProfile.id u ≠ user_id) →
  match_user_to_jobs norm self user_id top_k db = (Py.Return [], db).
Proof.
  intros Hno. unfold match_user_to_jobs.
  destruct (head (filter _ (DB.user_profiles db))) as [user|] eqn:Hu; [|done].
  apply head_Some_elem_of, list_elem_of_filter in Hu as [Hid Hin].
  by destruct (Hno user Hin).
Qed.

Lemma unknown_user_no_effect_witness :
  match_user_to_jobs Sample.unit_norm Sample.default_matcher 99 50 Sample.db
  = (Py.Return [], Sample.db).
Proof.
  apply (unknown_user_no_effect Sample.unit_norm Sample.default_matcher
           99 50 Sample.db).
  intros u Hu. apply list_elem_of_singleton in Hu. rewrite Hu.
  simpl. lia.
Defined.

End PipelineProofs.

Module ScoreRangeProofs.

Local Open Scope Q_scope.
Import EnhancedJobMatcher Props Facts.

#[local] Instance Qle_transitive : Transitive Qle := Qle_trans.

Lemma clamp_in_unit x : in_unit (Qmax 0.0 (Qmin 1.0 x)).
Proof.
  split.
  - etrans; [|apply Q.le_max_l]. done.
  - apply Q.max_lub; [done|]. etrans; [apply Q.le_min_l|]. done.
Qed.

(** The semantic sub-score lies in [0,1] whatever the encoder returns or
    raises: the similarity is clamped and the fallback is 0.5. *)
Theorem semantic_score_in_unit norm self user job :
  in_unit (_calculate_semantic_score norm self user job).
Proof.
  unfold _calculate_semantic_score.
  destruct (encoder self [user_text user]) as [[|u us]|e]; simpl;
    try (split; done).
  destruct (encoder self [job_text job]) as [[|v vs]|e]; simpl;
    try (split; done).
  apply clamp_in_unit.
Qed.

Lemma of_len_inj (a b : nat) : Py.of_len a == Py.of_len b → a = b.
Proof. unfold Py.of_len, Qeq. simpl. lia. Qed.

Lemma of_len_nonzero (n : nat) : (0 < n)%nat → ¬ Py.of_len n == 0.
Proof. unfold Py.of_len, Qeq. simpl. lia. Qed.

Lemma ratio_in_unit (a b : nat) :
  (a <= b)%nat → (0 < b)%nat → in_unit (Py.of_len a / Py.of_len b).
Proof.
  intros Hab Hb. unfold Py.of_len.
  assert (0 < inject_Z (Z.of_nat b)) as Hpos.
  { change 0 with (inject_Z 0). rewrite <- Zlt_Qlt. lia. }
  split.
  - apply Qle_shift_div_l; [done|]. rewrite Qmult_0_l.
    change 0 with (inject_Z 0). rewrite <- Zle_Qle. lia.
  - apply Qle_shift_div_r; [done|]. rewrite Qmult_1_l.
    rewrite <- Zle_Qle. lia.
Qed.

(** The skill sub-score lies in [0,1], and with a non-empty job skill set
    the matched and the missing skills together are the job's skills, each
    once: their numbers add up to the size of the job skill set, and no
    skill is missing exactly when the score is 1. *)
Theorem skill_match_partition self user job :
  let '(score, matched, missing) := _calculate_skill_match self user job in
  in_unit score
  ∧ (job_skill_set job ≠ ∅ →
     (length matched + length missing = size (job_skill_set job))%nat
     ∧ (∀ s, s ∈ job_skill_set job ↔ s ∈ matched ∨ s ∈ missing)
     ∧ (∀ s, s ∈ matched → s ∉ missing)
     ∧ (missing = [] ↔ score == 1)).
Proof.
  unfold _calculate_skill_match.
  set (U := user_skill_set user). set (J := job_skill_set job).
  destruct (bool_decide (J = ∅)) eqn:HJ.
  { apply bool_decide_eq_true in HJ. split; [by split|]. done. }
  apply bool_decide_eq_false in HJ. clearbody U J.
  assert (0 < size J)%nat as Hpos.
  { destruct (decide (size J = 0%nat)) as [H0|]; [|lia].
    apply size_empty_iff in H0. destruct HJ. by apply leibniz_equiv. }
  assert (size (U ∩ J) + size (J ∖ U) = size J)%nat as Hsum.
  { rewrite <- size_union by set_solver. f_equal. apply leibniz_equiv.
    intros s. destruct (decide (s ∈ U)); set_solver. }
  rewrite !SkillProofs.list_of_length.
  split; [apply ratio_in_unit; lia|]. intros _.
  split; [done|].
  split.
  { intros s. rewrite !SkillProofs.elem_of_list_of.
    destruct (decide (s ∈ U)); set_solver. }
  split.
  { intros s. rewrite !SkillProofs.elem_of_list_of. set_solver. }
  split.
  - intros Hnil.
    assert (size (J ∖ U) = 0%nat) as Hz.
    { by rewrite <- (SkillProofs.list_of_length (set_order self)), Hnil. }
    replace (size (U ∩ J)) with (size J) by lia.
    by apply Qmult_inv_r, of_len_nonzero.
  - intros H1.
    assert (size (J ∖ U) = 0%nat) as H0.
    2:{ apply length_zero_iff_nil. by rewrite SkillProofs.list_of_length. }
    assert (Py.of_len (size (U ∩ J)) == Py.of_len (size J)) as Heq.
    { rewrite <- (Qmult_div_r (Py.of_len (size (U ∩ J))) (Py.of_len (size J)))
        by by apply of_len_nonzero.
      rewrite H1. by rewrite Qmult_1_r. }
    apply of_len_inj in Heq. lia.
Qed.

(** The experience sub-score is never below 0.3 nor above 1. *)
Theorem experience_match_bounds user job :
  0.3 <= _calculate_experience_match user job
  ∧ _calculate_experience_match user job <= 1.
Proof.
  unfold _calculate_experience_match.
  destruct (Py.truthy_int _) as [years|]; [|by split].
  destruct (Py.truthy_str _) as [level|]; [|by split].
  destruct (default _ _) as [lo hi]. simpl.
  destruct (_ && _) eqn:Hin; [by split|].
  destruct (years <? lo)%Z eqn:E.
  - split; [apply Q.le_max_l|]. apply Q.max_lub; [done|].
    apply Z.ltb_lt in E. unfold Py.of_int.
    assert (0 <= inject_Z (lo - years)).
    { change 0 with (inject_Z 0). rewrite <- Zle_Qle. lia. }
    lra.
  - apply Z.ltb_ge in E.
    split; [etrans; [|apply Q.le_max_l]; done|]. apply Q.max_lub; [done|].
    apply andb_false_iff in Hin as [Hin|Hin]; [apply Z.leb_gt in Hin; lia|].
    apply Z.leb_gt in Hin.
    assert (0 <= Py.of_int (years - hi)).
    { unfold Py.of_int. change 0 with (inject_Z 0). rewrite <- Zle_Qle. lia. }
    lra.
Qed.

Lemma skill_match_partition_witness :
  (length ["python"] + length ["sql"]
   = size (job_skill_set Sample.backend_job))%nat.
Proof.
  pose proof (skill_match_partition Sample.default_matcher Sample.alice
                Sample.backend_job) as H.
  change (_calculate_skill_match Sample.default_matcher Sample.alice
            Sample.backend_job)
    with (Py.of_len 1 / Py.of_len 2, ["python"], ["sql"]) in H.
  destruct H as [_ H]. apply H.
  intros Hempty. vm_compute in Hempty. discriminate.
Defined.

(** A level that is not in the table is scored against the range (0, 20):
    every candidate with 1 to 20 years of experience gets 1.0. *)
Theorem experience_match_unknown_level user job years level :
  UserProfile.experience_years user = Some years →
  Job.experience_level job = Some level →
  level ≠ "" → level_ranges !! level = None →
  (1 <= years <= 20)%Z →
  _calculate_experience_match user job = 1.0.
Proof.
  intros Hy Hl Hne Hnone Hrange. unfold _calculate_experience_match.
  rewrite Hy, Hl.
  assert (Py.truthy_int (Some years) = Some years) as ->.
  { destruct years; [lia|done..]. }
  assert (Py.truthy_str (Some level) = Some level) as ->.
  { by destruct level. }
  rewrite Hnone. simpl. assert ((0 <=? years)%Z = true) as -> by lia.
  by assert ((years <=? 20)%Z = true) as -> by lia.
Qed.

Lemma experience_match_unknown_level_witness :
  _calculate_experience_match Sample.alice Fixtures.staff_job = 1.0.
Proof.
  apply (experience_match_unknown_level Sample.alice Fixtures.staff_job 5 "staff").
  - reflexivity.
  - reflexivity.
  - discriminate.
  - reflexivity.
  - lia.
Defined.

Lemma prefix_app a b t :
  String.prefix (a +:+ b) t = true → String.prefix a t = true.
Proof.
  revert t. induction a as [|c a IH]; intros t; [by destruct t|].
  destruct t as [|c' t]; simpl; [done|].
  destruct (Ascii.ascii_dec c c'); [apply IH|done].
Qed.

Lemma contains_unfold needle haystack :
  Py.contains needle haystack
  = String.prefix needle haystack
    || match haystack with
       | EmptyString => false
       | String _ rest => Py.contains needle rest
       end.
Proof. by destruct haystack. Qed.

(** A text that contains a longer string contains each of its beginnings. *)
Lemma contains_app a b t :
  Py.contains (a +:+ b) t = true → Py.contains a t = true.
Proof.
  induction t as [|c t IH].
  - rewrite (contains_unfold (a +:+ b) ""), (contains_unfold a "").
    rewrite !orb_false_r. apply prefix_app.
  - rewrite (contains_unfold (a +:+ b) (String c t)),
      (contains_unfold a (String c t)).
    intros [H|H]%orb_true_iff.
    + by rewrite (prefix_app _ _ _ H).
    + rewrite (IH H). apply orb_true_r.
Qed.

(** Skills are found in a description as substrings, so every description
    that names javascript also yields java as a job skill. *)
Theorem javascript_implies_java text :
  "javascript" ∈ _extract_skills_from_text text →
  "java" ∈ _extract_skills_from_text text.
Proof.
  unfold _extract_skills_from_text.
  rewrite !elem_of_list_to_set, !list_elem_of_filter. intros [Hc _]. split.
  - by apply (contains_app "java" "script").
  - unfold common_skills. set_solver.
Qed.

Lemma javascript_implies_java_witness :
  "java" ∈ _extract_skills_from_text "we use javascript daily".
Proof.
  apply (javascript_implies_java "we use javascript daily").
  apply elem_of_list_to_set, list_elem_of_filter. split.
  - reflexivity.
  - unfold common_skills. do 2 apply list_elem_of_further. apply list_elem_of_here.
Defined.

Lemma contains_empty t : Py.contains "" t = true.
Proof. by destruct t. Qed.

(** The location sub-score takes one of four values; and a preferred
    location that is the empty string matches every posted location. *)
Theorem location_match_values user job :
  (_calculate_location_match user job = 0.4
   ∨ _calculate_location_match user job = 0.8
   ∨ _calculate_location_match user job = 0.9
   ∨ _calculate_location_match user job = 1.0)
  ∧ (∀ prefs location,
       UserProfile.preferred_locations user = Some prefs → "" ∈ prefs →
       Job.location job = Some location → location ≠ "" →
       _calculate_location_match user job = 1.0).
Proof.
  unfold _calculate_location_match. split.
  - destruct (UserProfile.preferred_locations user) as [[|p ps]|]; auto.
    destruct (Py.truthy_str (Job.location job)); auto.
    destruct (existsb _ _); auto. destruct (_ && _); auto.
  - intros prefs location -> Hin -> Hne.
    assert (Py.truthy_str (Some location) = Some location) as ->.
    { by destruct location. }
    destruct prefs as [|p ps]; [by apply elem_of_nil in Hin|].
    assert (existsb
              (λ pref_location,
                 Py.contains (Py.lower pref_location) (Py.lower location)
                 || Py.contains (Py.lower location) (Py.lower pref_location))
              (p :: ps) = true) as ->; [|done].
    apply existsb_exists. exists "". split; [by apply list_elem_of_In|].
    simpl. by rewrite contains_empty.
Qed.

Lemma location_match_values_witness :
  _calculate_location_match Fixtures.nomad Fixtures.staff_job = 1.0.
Proof.
  apply (location_match_values Fixtures.nomad Fixtures.staff_job) with
    (prefs := [""]) (location := "Berlin").
  - reflexivity.
  - apply list_elem_of_here.
  - reflexivity.
  - discriminate.
Defined.

(** The company sub-score never exceeds 1, and with a rating that is not
    negative it is at least the base 0.5. *)
Theorem company_match_bounds user job :
  _calculate_company_match user job <= 1
  ∧ (rating_nonneg job → 0.5 <= _calculate_company_match user job).
Proof.
  unfold _calculate_company_match, rating_nonneg.
  destruct (Job.company job) as [company|]; [|by split].
  split; [etrans; [apply Q.le_min_l|done]|]. intros Hr. apply Q.min_glb; [done|].
  set (base := match UserProfile.preferred_company_size user with
               | Some (p :: ps) => _ | _ => _ end).
  assert (0.5 <= base) as Hbase.
  { subst base. destruct (UserProfile.preferred_company_size user) as [[|p ps]|];
      try done.
    destruct (Py.truthy_str _); [|done]. destruct (Py.mem _ _); done. }
  unfold Py.truthy_float.
  destruct (Company.glassdoor_rating company) as [rating|] eqn:E; [|done].
  destruct (Qeq_bool rating 0); [done|].
  specialize (Hr company rating eq_refl E). clearbody base.
  assert (0 <= rating / 5.0).
  { apply Qle_shift_div_l; [done|]. lra. }
  lra.
Qed.

Lemma company_match_bounds_witness :
  0.5 <= _calculate_company_match Sample.alice Fixtures.staff_job.
Proof.
  apply (company_match_bounds Sample.alice Fixtures.staff_job).
  intros company rating [= <-] [= <-]. vm_compute. discriminate.
Defined.

Lemma range_score_in_unit user_min user_max job_min job_max :
  0 < user_min → user_min <= user_max → job_min <= job_max →
  in_unit (range_score user_min user_max job_min job_max).
Proof.
  intros Hpos Hu Hj. unfold range_score.
  destruct (Py.ge job_max user_min) eqn:E1; simpl.
  - apply SalaryProofs.ge_true in E1.
    destruct (Py.le job_min user_max) eqn:E2; simpl.
    + apply SalaryProofs.le_true in E2.
      destruct (Py.gt (user_max - user_min) 0) eqn:E3; [|by split].
      apply SalaryProofs.gt_true in E3.
      split; [|etrans; [apply Q.le_min_l|done]]. apply Q.min_glb; [done|].
      apply Qle_shift_div_l; [done|]. rewrite Qmult_0_l.
      assert (Qmax user_min job_min <= Qmin user_max job_max); [|lra].
      apply Q.max_lub; apply Q.min_glb; lra.
    + destruct (Py.lt job_max user_min) eqn:E3; [|by split].
      apply SalaryProofs.lt_true in E3. lra.
  - apply SalaryProofs.ge_false in E1.
    apply SalaryProofs.lt_true in E1 as E1'. rewrite E1'.
    split; [etrans; [|apply Q.le_max_l]; done|]. apply Q.max_lub; [done|].
    assert (0 <= (user_min - job_max) / user_min); [|lra].
    apply Qle_shift_div_l; [done|]. lra.
Qed.

(** With positive salary figures whose lower ends are not above the upper
    ends, the salary sub-score lies in [0,1]. *)
Theorem salary_match_in_unit user job :
  salary_ranges_wf user job → in_unit (_calculate_salary_match user job).
Proof.
  intros [Hu Hj].
  destruct (user_salary_range user) as [[umin umax]|] eqn:Eu;
    [|rewrite SalaryProofs.salary_match_default by auto; by split].
  destruct (job_salary_range job) as [[jmin jmax]|] eqn:Ej;
    [|rewrite SalaryProofs.salary_match_default by auto; by split].
  rewrite (SalaryProofs.salary_match_of_ranges _ _ _ _ _ _ Eu Ej).
  destruct (Hu _ _ eq_refl) as [? ?]. destruct (Hj _ _ eq_refl) as [? ?].
  by apply range_score_in_unit.
Qed.

Lemma sample_salary_ranges_wf : salary_ranges_wf Sample.alice Sample.backend_job.
Proof.
  split; intros lo hi [= <- <-]; split; vm_compute; discriminate || reflexivity.
Defined.

Lemma salary_match_in_unit_witness :
  in_unit (_calculate_salary_match Sample.alice Sample.backend_job).
Proof.
  apply (salary_match_in_unit Sample.alice Sample.backend_job).
  exact sample_salary_ranges_wf.
Defined.

Lemma sub_scores_of_record norm self user job :
  sub_scores (_calculate_match_score norm self user job)
  = [ _calculate_semantic_score norm self user job;
      (_calculate_skill_match self user job).1.1;
      _calculate_experience_match user job;
      _calculate_location_match user job;
      _calculate_salary_match user job;
      _calculate_company_match user job ].
Proof.
  unfold _calculate_match_score.
  by destruct (_calculate_skill_match self user job) as [[? ?] ?].
Qed.

(** End to end: with non-negative weights that sum to at most 1 (the
    defaults do), well-formed salary figures and no negative rating, every
    sub-score and the overall score of the computed record lie in [0,1]. *)
Theorem match_score_in_unit norm self user job :
  weights_nonneg (weights self) → weight_sum (weights self) <= 1 →
  salary_ranges_wf user job → rating_nonneg job →
  let m := _calculate_match_score norm self user job in
  Forall in_unit (sub_scores m) ∧ in_unit (MatchData.overall_score m).
Proof.
  intros Hw Hsum Hsal Hrat m.
  assert (Forall in_unit (sub_scores m)) as Hsub.
  { subst m. rewrite sub_scores_of_record.
    pose proof (skill_match_partition self user job) as Hskill.
    destruct (_calculate_skill_match self user job) as [[score matched] missing].
    destruct Hskill as [Hskill _].
    destruct (experience_match_bounds user job) as [He1 He2].
    destruct (location_match_values user job) as [Hloc _].
    destruct (company_match_bounds user job) as [Hc1 Hc2].
    repeat apply Forall_cons_2; try apply Forall_nil_2.
    - apply semantic_score_in_unit.
    - done.
    - split; [|done]. etrans; [|exact He1]. done.
    - destruct Hloc as [-> | [-> | [-> | ->]]]; by split.
    - by apply salary_match_in_unit.
    - split; [|done]. etrans; [|by apply Hc2]. done. }
  split; [done|]. subst m. rewrite ScorerProofs.overall_score_is_weighted_sum.
  unfold sub_scores in Hsub.
  repeat (apply Forall_cons in Hsub as [? Hsub]).
  by apply ScorerProofs.weighted_overall_score_bounds.
Qed.

Lemma match_score_in_unit_witness :
  in_unit (MatchData.overall_score
             (_calculate_match_score Sample.unit_norm Sample.default_matcher
                Sample.alice Sample.backend_job)).
Proof.
  apply (match_score_in_unit Sample.unit_norm Sample.default_matcher
           Sample.alice Sample.backend_job).
  - intros key w H. vm_compute in H. discriminate.
  - vm_compute. discriminate.
  - exact sample_salary_ranges_wf.
  - intros company rating H. vm_compute in H. discriminate.
Defined.

End ScoreRangeProofs.

Module RunProofs.

Local Open Scope Q_scope.
Import EnhancedJobMatcher Props Facts.

Lemma job_of_record norm self user job :
  MatchData.job (_calculate_match_score norm self user job) = job.
Proof.
  unfold _calculate_match_score.
  by destruct (_calculate_skill_match self user job) as [[? ?] ?].
Qed.

Lemma slice_to_length {A} (l : list A) k :
  (0 <= k)%Z → (Z.of_nat (length (Py.slice_to l k)) <= k)%Z.
Proof.
  intros Hk. unfold Py.slice_to.
  assert ((0 <=? k)%Z = true) as -> by lia. rewrite length_take. lia.
Qed.

(** The list a run returns is ranked by overall score, largest first; each
    of its records reaches the minimum match score (0.6 when the key is not
    configured) and belongs to an active job of the job table; and for a
    bound [top_k] that is not negative it has at most [top_k] records. *)
Theorem run_result_ranked norm self user_id top_k db matches db' :
  match_user_to_jobs norm self user_id top_k db = (Py.Return matches, db') →
  StronglySorted by_overall_score matches
  ∧ Forall
      (λ m, minimum_match_score self <= MatchData.overall_score m
            ∧ MatchData.job m ∈ DB.jobs db
            ∧ Job.is_active (MatchData.job m) = Some true
            ∧ MatchData.job_id m = Job.id (MatchData.job m))
      matches
  ∧ ((0 <= top_k)%Z → (Z.of_nat (length matches) <= top_k)%Z).
Proof.
  unfold match_user_to_jobs.
  destruct (head (filter _ (DB.user_profiles db))) as [user|].
  - intros [= <- <-]. split; [|split].
    + unfold Py.slice_to.
      destruct (0 <=? top_k)%Z;
        apply VectorStoreProofs.sorted_take, PipelineProofs.sort_by_score_desc_sorted.
    + apply Forall_forall. intros m Hm.
      apply PipelineProofs.slice_to_elem_of in Hm.
      rewrite PipelineProofs.sort_by_score_desc_elem_of in Hm.
      apply list_elem_of_filter in Hm as [Hge Hm].
      apply list_elem_of_fmap in Hm as (job & -> & Hjob).
      apply list_elem_of_filter in Hjob as [Hactive Hjob].
      rewrite job_of_record, PipelineProofs.job_id_of_record.
      split; [by apply SalaryProofs.ge_true in Hge|done].
    + apply slice_to_length.
  - intros [= <- <-]. split; [constructor|]. split; [constructor|].
    simpl. lia.
Qed.

Lemma run_result_ranked_witness :
  ∃ matches db',
    match_user_to_jobs Sample.unit_norm Sample.default_matcher 1 50 Sample.db
    = (Py.Return matches, db')
    ∧ StronglySorted by_overall_score matches
    ∧ (Z.of_nat (length matches) <= 50)%Z.
Proof.
  eexists _, _. split; [reflexivity|].
  destruct (run_result_ranked Sample.unit_norm Sample.default_matcher 1 50
              Sample.db _ _ eq_refl) as (Hsorted & _ & Hlen).
  split; [exact Hsorted|]. apply Hlen. lia.
Defined.

(** A run writes only the rows of its user: the profile and job tables and
    the rows of every other user are as before, in the same order. *)
Theorem run_frame norm self user_id top_k db :
  let db' := (match_user_to_jobs norm self user_id top_k db).2 in
  DB.user_profiles db' = DB.user_profiles db
  ∧ DB.jobs db' = DB.jobs db
  ∧ ∀ other, other ≠ user_id →
      rows_of other (DB.matches db') = rows_of other (DB.matches db).
Proof.
  unfold match_user_to_jobs.
  destruct (head (filter _ (DB.user_profiles db))) as [user|]; simpl; [|done].
  split; [done|]. split; [done|]. intros other Hne.
  by apply (RepositoryProofs.store_matches_other_users user_id other).
Qed.

Lemma run_frame_witness :
  rows_of 2
    (DB.matches
       (match_user_to_jobs Sample.unit_norm Sample.default_matcher 1 50
          Fixtures.shared_db).2)
  = rows_of 2 (DB.matches Fixtures.shared_db).
Proof.
  apply (run_frame Sample.unit_norm Sample.default_matcher 1 50 Fixtures.shared_db).
  lia.
Defined.

Lemma rows_of_store user_id matches db :
  rows_of user_id (DB.matches (_store_matches user_id matches db))
  = match_row user_id <$> matches.
Proof.
  unfold rows_of, _store_matches. simpl. rewrite filter_app.
  assert (filter (λ m, Match.user_id m = user_id)
            (filter (λ m, Match.user_id m ≠ user_id) (DB.matches db)) = []) as ->.
  { induction (DB.matches db) as [|m table IH]; [done|].
    rewrite (filter_cons (λ m, Match.user_id m ≠ user_id)).
    destruct (decide (Match.user_id m ≠ user_id)); [|done].
    rewrite filter_cons. by destruct (decide (Match.user_id m = user_id)). }
  simpl. induction matches as [|r matches IH]; [done|].
  rewrite fmap_cons, filter_cons. destruct (decide _) as [_|Hn]; [|by destruct Hn].
  by rewrite IH.
Qed.

(** For an existing user, the user's rows after a run are exactly the rows
    of the returned list, in its order; every one of them is unviewed,
    unsaved and unrated, whatever the user had marked before. *)
Theorem run_replaces_rows norm self user_id top_k db user matches db' :
  head (filter (λ u, UserProfile.id u = user_id) (DB.user_profiles db))
  = Some user →
  match_user_to_jobs norm self user_id top_k db = (Py.Return matches, db') →
  rows_of user_id (DB.matches db') = match_row user_id <$> matches
  ∧ Forall untouched (rows_of user_id (DB.matches db')).
Proof.
  intros Hu. unfold match_user_to_jobs. rewrite Hu. intros [= <- <-].
  rewrite rows_of_store. split; [done|].
  apply Forall_fmap, Forall_forall. by intros m _.
Qed.

Lemma run_replaces_rows_witness :
  Forall untouched
    (rows_of 1
       (DB.matches
          (match_user_to_jobs Sample.unit_norm Sample.default_matcher 1 50
             Fixtures.shared_db).2)).
Proof.
  eapply (run_replaces_rows Sample.unit_norm Sample.default_matcher 1 50
            Fixtures.shared_db Sample.alice).
  - reflexivity.
  - reflexivity.
Defined.

(** For an existing user, a run with [top_k = 0], or with no active job in
    the job table, returns the empty list and leaves the user without any
    stored row. *)
Theorem run_erases_rows norm self user_id top_k db user :
  head (filter (λ u, UserProfile.id u = user_id) (DB.user_profiles db))
  = Some user →
  top_k = 0%Z ∨ Forall (λ j, Job.is_active j ≠ Some true) (DB.jobs db) →
  ∃ db',
    match_user_to_jobs norm self user_id top_k db = (Py.Return [], db')
    ∧ rows_of user_id (DB.matches db') = [].
Proof.
  intros Hu Hcase. unfold match_user_to_jobs. rewrite Hu.
  match goal with
  | |- ∃ _, (Py.Return ?l, _) = _ ∧ _ => assert (l = []) as ->
  end.
  { destruct Hcase as [->|Hnone].
    - unfold Py.slice_to. simpl. apply take_0.
    - assert (filter (λ j, Job.is_active j = Some true) (DB.jobs db) = []) as ->.
      { induction Hnone as [|j jobs Hj _ IH]; [done|].
        rewrite filter_cons. by destruct (decide _). }
      rewrite fmap_nil, filter_nil. unfold Py.slice_to. simpl.
      destruct (0 <=? top_k)%Z; simpl; [|done]. by destruct (Z.to_nat top_k). }
  eexists. split; [reflexivity|]. by rewrite rows_of_store.
Qed.

Lemma run_erases_rows_witness :
  ∃ db',
    match_user_to_jobs Sample.unit_norm Sample.default_matcher 1 0 Sample.db
    = (Py.Return [], db')
    ∧ rows_of 1 (DB.matches db') = [].
Proof.
  apply (run_erases_rows Sample.unit_norm Sample.default_matcher 1 0 Sample.db
           Sample.alice).
  - reflexivity.
  - left. reflexivity.
Defined.

Lemma insert_by_score_ties q x l :
  filter (has_score q) (insert_by_score x l) = filter (has_score q) (x :: l).
Proof.
  induction l as [|y l IH]; simpl; [done|].
  destruct (Py.ge _ _) eqn:E; [done|].
  rewrite (filter_cons _ y), IH, !filter_cons.
  destruct (decide (has_score q x)) as [Hx|Hx]; [|done].
  destruct (decide (has_score q y)) as [Hy|Hy]; [|done].
  unfold has_score in *. apply SalaryProofs.ge_false in E.
  rewrite Hx, Hy in E. by apply Qlt_irrefl in E.
Qed.

(** The ranking is stable: the records that share an overall score come
    out of the sort in the order they went in (the order of the job
    table). *)
Theorem sort_by_score_desc_stable q l :
  filter (has_score q) (sort_by_score_desc l) = filter (has_score q) l.
Proof.
  induction l as [|x l IH]; simpl; [done|].
  by rewrite insert_by_score_ties, !filter_cons, IH.
Qed.

End RunProofs.

Module StoreProofs.

Local Open Scope Q_scope.
Import FaissStore Props Facts.

Local Arguments hit_of : simpl never.

(** Saving and loading: after a successful [add], with the directory of
    the index file in place, a store constructed from the files written is
    the store that wrote them, provided the index and the ids go to
    different paths; with one path for both, the id list overwrites the
    index and the next load starts from an empty store.  When the
    directory cannot be made, the constructor ends with that error and
    nothing is loaded. *)
Theorem add_then_load tree self vecs new_ids fs self' fs' :
  add self vecs new_ids fs = Py.Return (self', fs') →
  (makedirs tree (dirname (path self)) = Py.Return tt →
   (path self ≠ id_path self →
    __init__ tree (d self) (path self) (id_path self) fs' = Py.Return self')
   ∧ (path self = id_path self →
      __init__ tree (d self) (path self) (id_path self) fs'
      = Py.Return (fresh (d self) (path self) (id_path self))))
  ∧ (∀ e, makedirs tree (dirname (path self)) = Py.Raise e →
          __init__ tree (d self) (path self) (id_path self) fs' = Py.Raise e).
Proof.
  unfold add, Faiss.add. destruct (Faiss.has_dim _ _); [|done].
  intros [= <- <-]. split.
  - intros Hmk. unfold __init__. rewrite Hmk.
    unfold _save, read_index, pickle_load. simpl.
    split; intros Hp.
    + rewrite lookup_insert_eq. rewrite lookup_insert_ne by done.
      rewrite lookup_insert_eq. done.
    + rewrite Hp. rewrite !lookup_insert_eq. done.
  - intros e He. unfold __init__. by rewrite He.
Qed.

Lemma add_then_load_witness :
  ∃ self' fs',
    add (fresh 2 default_path default_id_path) (Array1 [1; 0]) ["job:1"] ∅
    = Py.Return (self', fs')
    ∧ __init__ Sample.writable_tree 2 default_path default_id_path fs'
      = Py.Return self'.
Proof.
  eexists _, _. split; [reflexivity|].
  apply (add_then_load Sample.writable_tree
           (fresh 2 default_path default_id_path) (Array1 [1; 0])
           ["job:1"] ∅).
  - reflexivity.
  - reflexivity.
  - discriminate.
Defined.

(** A successful [add] appends the rows and the ids as given, without
    comparing their numbers: a store with as many ids as vectors stays so
    exactly when the call brings as many ids as rows. *)
Theorem add_grows self vecs new_ids fs self' fs' :
  add self vecs new_ids fs = Py.Return (self', fs') →
  Faiss.xb (index self') = Faiss.xb (index self) ++ as_rows vecs
  ∧ ids self' = ids self ++ new_ids
  ∧ (consistent self →
     (consistent self' ↔ length new_ids = length (as_rows vecs))).
Proof.
  unfold add, Faiss.add. destruct (Faiss.has_dim _ _); [|done].
  intros [= <- <-]. simpl. split; [done|]. split; [done|].
  unfold consistent, Faiss.ntotal. simpl. rewrite !length_app.
  intros Hc. unfold Faiss.vector, vector in *. split; lia.
Qed.

Lemma add_grows_witness :
  ∃ self' fs',
    add (fresh 2 "index" "ids") (Array2 [[1; 0]; [0; 1]]) ["job:1"] ∅
    = Py.Return (self', fs')
    ∧ ¬ consistent self'.
Proof.
  eexists _, _. split; [reflexivity|].
  destruct (add_grows (fresh 2 "index" "ids") (Array2 [[1; 0]; [0; 1]])
              ["job:1"] ∅ _ _ eq_refl) as (_ & _ & Hiff).
  intros Hc. apply Hiff in Hc; [discriminate|reflexivity].
Defined.

(** Starting from a new store, a sequence of [add] calls that each bring as
    many ids as rows leaves as many ids as vectors, whichever of the calls
    are refused. *)
Theorem add_all_consistent d path id_path fs ops :
  Forall (λ op, length op.2 = length (as_rows op.1)) ops →
  consistent (add_all (fresh d path id_path) fs ops).1.
Proof.
  assert (consistent (fresh d path id_path)) as Hfresh by done.
  revert Hfresh. generalize (fresh d path id_path) as self. revert fs.
  induction ops as [|[vecs new_ids] ops IH]; intros fs self Hc Hall; [done|].
  apply Forall_cons in Hall as [Hop Hall]. simpl.
  destruct (add self vecs new_ids fs) as [[self' fs']|e] eqn:E.
  - apply IH; [|done].
    apply add_grows in E as (_ & _ & Hiff). by apply Hiff.
  - by apply IH.
Qed.

Lemma add_all_consistent_witness :
  consistent (add_all (fresh 2 "index" "ids") ∅ Sample.insertions).1.
Proof.
  apply (add_all_consistent 2 "index" "ids" ∅ Sample.insertions).
  repeat constructor.
Defined.

Lemma insert_desc_perm x l : Faiss.insert_desc x l ≡ₚ x :: l.
Proof.
  induction l as [|y l IH]; simpl; [done|].
  destruct (Py.ge _ _); [done|]. rewrite IH. apply Permutation_swap.
Qed.

Lemma sort_desc_perm l : Faiss.sort_desc l ≡ₚ l.
Proof.
  induction l as [|x l IH]; simpl; [done|].
  by rewrite insert_desc_perm, IH.
Qed.

(** The scored entries of a query: one per stored vector, labelled by its
    position. *)
Lemma scored_entry (index : Faiss.IndexFlatIP) q dist idx :
  (dist, idx) ∈ imap (λ i v, (Faiss.inner_product q v, Z.of_nat i)) (Faiss.xb index) →
  (0 <= idx < Z.of_nat (Faiss.ntotal index))%Z.
Proof.
  intros Hin. apply elem_of_lookup_imap in Hin as (i & v & Heq & Hlook).
  apply lookup_lt_Some in Hlook. injection Heq as _ ->.
  unfold Faiss.ntotal. lia.
Qed.

Lemma hit_of_valid self dist idx :
  consistent self →
  (0 <= idx < Z.of_nat (Faiss.ntotal (index self)))%Z →
  ∃ h, hit_of self (dist, idx) = Some h ∧ score h = dist.
Proof.
  unfold consistent, hit_of. intros -> Hidx.
  assert ((idx <? 0)%Z = false) as -> by lia.
  assert ((Z.of_nat (length (ids self)) <=? idx)%Z = false) as -> by lia.
  simpl. destruct (ids self !! Z.to_nat idx) as [i|] eqn:E; [by eexists|].
  apply lookup_ge_None in E. lia.
Qed.

Lemma sorted_head_max (x : Q * Z) l y :
  StronglySorted by_distance (x :: l) → y ∈ x :: l → y.1 <= x.1.
Proof.
  intros Hs Hy. apply StronglySorted_inv in Hs as [_ Hall].
  apply elem_of_cons in Hy as [->|Hy]; [apply Qle_refl|].
  rewrite Forall_forall in Hall. by apply Hall.
Qed.

(** On a store with as many ids as vectors, the first hit of a query is a
    best match: no stored vector has a larger inner product with the
    query. *)
Theorem search_top_hit self q top_k h rest others :
  consistent self →
  search self (Array1 q) top_k = Py.Return ((h :: rest) :: others) →
  ∀ v, v ∈ Faiss.xb (index self) → Faiss.inner_product q v <= score h.
Proof.
  intros Hc. unfold search.
  destruct (Faiss.ntotal (index self) =? 0)%nat; [done|].
  unfold Faiss.search. destruct (negb _); [done|].
  destruct top_k as [|k]; [done|]. simpl. intros [= Hrow _] v Hv.
  unfold row_hits in Hrow. rewrite zip_fst_snd in Hrow.
  unfold Faiss.search_row in Hrow.
  rewrite omap_app, VectorStoreProofs.hits_of_padding, app_nil_r in Hrow.
  match type of Hrow with
  | context [Faiss.sort_desc ?s] => set (scored := s) in *
  end.
  pose proof (VectorStoreProofs.sort_desc_sorted scored) as Hsorted.
  pose proof (sort_desc_perm scored) as Hperm.
  apply list_elem_of_lookup in Hv as [i Hi].
  assert ((Faiss.inner_product q v, Z.of_nat i) ∈ Faiss.sort_desc scored) as Hin.
  { rewrite Hperm. subst scored.
    exact (elem_of_lookup_imap_2
             (λ i v, (Faiss.inner_product q v, Z.of_nat i)) _ v i Hi). }
  destruct (Faiss.sort_desc scored) as [|[dist idx] tl] eqn:Es;
    [by apply elem_of_nil in Hin|].
  pose proof (sorted_head_max _ _ _ Hsorted Hin) as Hmax. simpl in Hmax.
  assert ((0 <= idx < Z.of_nat (Faiss.ntotal (index self)))%Z) as Hidx.
  { apply (scored_entry (index self) q dist). fold scored.
    rewrite <- Hperm. apply list_elem_of_here. }
  destruct (hit_of_valid self dist idx Hc Hidx) as (h0 & Hh0 & Hsc).
  rewrite firstn_cons in Hrow. csimpl in Hrow. rewrite Hh0 in Hrow.
  injection Hrow as -> _. by rewrite Hsc.
Qed.

Lemma search_top_hit_witness :
  Faiss.inner_product [1; 2] [1; 0] <= 3.
Proof.
  apply (search_top_hit
           (add_all (fresh 2 "index" "ids") ∅ Sample.insertions).1
           [1; 2] 2 {| id := "job:3"; score := 3 |}
           [{| id := "job:2"; score := 2 |}] []).
  - reflexivity.
  - reflexivity.
  - apply list_elem_of_here.
Defined.

End StoreProofs.

Module ConfigProofs.

Import Config Facts.

Lemma split_nonempty sep s : split sep s ≠ [].
Proof.
  destruct s as [|c s]; simpl; [done|].
  destruct (Ascii.eqb c sep); [done|]. by destruct (split sep s).
Qed.

Lemma set_keys_get keys : ∀ config v config' d,
  set_keys config keys v = Py.Return config' →
  get_keys config' keys d = v.
Proof.
  induction keys as [|k keys IH]; intros config v config' d; [done|].
  simpl. destruct config as [| | | | |entries]; try done.
  destruct keys as [|k2 keys].
  - intros [= <-]. by rewrite lookup_insert_eq.
  - destruct (set_keys _ (k2 :: keys) v) as [inner|e] eqn:E; [|done].
    intros [= <-]. rewrite lookup_insert_eq. by eapply IH.
Qed.

(** Setting then getting: after [set(key, value)] has returned,
    [get(key, default)] gives that value, whatever the default. *)
Theorem set_then_get _config key v _config' d :
  set _config key v = Py.Return _config' → get _config' key d = v.
Proof. apply set_keys_get. Qed.

Lemma set_then_get_witness :
  ∃ _config',
    set Fixtures.settings "matching.thresholds.minimum_match_score" (Num 0.5)
    = Py.Return _config'
    ∧ get _config' "matching.thresholds.minimum_match_score" Null = Num 0.5.
Proof.
  eexists. split; [reflexivity|].
  apply (set_then_get Fixtures.settings).
  reflexivity.
Defined.

Lemma get_keys_empty k keys d : get_keys (Dict ∅) (k :: keys) d = d.
Proof. simpl. by rewrite lookup_empty. Qed.

Lemma set_keys_frame common : ∀ k k' rest rest' config v config' d,
  k ≠ k' →
  set_keys config (common ++ k :: rest) v = Py.Return config' →
  get_keys config' (common ++ k' :: rest') d
  = get_keys config (common ++ k' :: rest') d.
Proof.
  induction common as [|c common IH]; intros k k' rest rest' config v config' d Hne.
  - simpl. destruct config as [| | | | |entries]; try done.
    destruct rest as [|k2 rest].
    + intros [= <-]. by rewrite lookup_insert_ne.
    + destruct (set_keys _ (k2 :: rest) v) as [inner|e]; [|done].
      intros [= <-]. rewrite lookup_insert_ne by done.
      destruct (entries !! k); [done|]. by rewrite lookup_insert_ne.
  - simpl. destruct config as [| | | | |entries]; try done.
    destruct (common ++ k :: rest) as [|k2 tail] eqn:Etail;
      [by destruct common|].
    destruct (set_keys _ (k2 :: tail) v) as [inner|e] eqn:E; [|done].
    intros [= <-]. rewrite lookup_insert_eq. rewrite <- Etail in E.
    destruct (entries !! c) as [child|] eqn:Ec.
    + rewrite Ec in E. simpl in E. by eapply IH.
    + rewrite lookup_insert_eq in E. simpl in E.
      erewrite IH by done. by destruct common.
Qed.

(** A [set] that has returned changes nothing that [get] reads along a key
    path which parts ways with the one that was set. *)
Theorem set_keeps_other_keys _config key v _config' key' d :
  set _config key v = Py.Return _config' →
  diverge (split "." key) (split "." key') →
  get _config' key' d = get _config key' d.
Proof.
  unfold set, get. intros Hset (common & k & k' & rest & rest' & Hk & Hk' & Hne).
  rewrite Hk in Hset. rewrite Hk'. by eapply set_keys_frame.
Qed.

Lemma set_keeps_other_keys_witness :
  ∃ _config',
    set Fixtures.settings "matching.thresholds.minimum_match_score" (Num 0.5)
    = Py.Return _config'
    ∧ get _config' "matching.weights.semantic_score" Null = Num 0.3.
Proof.
  eexists. split; [reflexivity|].
  etrans.
  - apply (set_keeps_other_keys Fixtures.settings
             "matching.thresholds.minimum_match_score" (Num 0.5) _
             "matching.weights.semantic_score" Null).
    + reflexivity.
    + exists ["matching"], "thresholds", "weights",
        ["minimum_match_score"], ["semantic_score"].
      split; [reflexivity|]. split; [reflexivity|]. discriminate.
  - reflexivity.
Defined.

Lemma set_keys_step entries k k2 keys v :
  set_keys (Dict entries) (k :: k2 :: keys) v
  = (let entries :=
       match entries !! k with
       | Some _ => entries
       | None => <[k := Dict ∅]> entries
       end in
     inner ← set_keys (default (Dict ∅) (entries !! k)) (k2 :: keys) v;
     mret (Dict (<[k := inner]> entries))).
Proof. done. Qed.

Lemma set_keys_empty keys v :
  keys ≠ [] → ∃ config', set_keys (Dict ∅) keys v = Py.Return config'.
Proof.
  induction keys as [|k keys IH]; intros Hne; [done|].
  destruct keys as [|k2 keys]; [by eexists|].
  rewrite set_keys_step, lookup_empty. cbv beta iota zeta.
  rewrite lookup_insert_eq. change (default (Dict ∅) (Some (Dict ∅))) with (Dict ∅).
  destruct IH as [inner ->]; [done|]. by eexists.
Qed.

(** [set] fails in one way only, with [TypeError] (when the path meets a
    value that is not a dictionary); on a dictionary that lacks the first
    key of the path it always returns, creating the dictionaries on the
    way. *)
Theorem set_outcome _config key v :
  (∀ e, set _config key v = Py.Raise e → e = "TypeError")
  ∧ (∀ entries,
       _config = Dict entries →
       entries !! default "" (head (split "." key)) = None →
       ∃ _config', set _config key v = Py.Return _config').
Proof.
  unfold set. pose proof (split_nonempty "." key) as Hne.
  split.
  - revert _config Hne. induction (split "." key) as [|k keys IH];
      intros config Hne e; [done|].
    simpl. destruct config as [| | | | |entries]; try by intros [= <-].
    destruct keys as [|k2 keys]; [done|].
    destruct (set_keys _ (k2 :: keys) v) as [inner|e'] eqn:E; [done|].
    intros [= <-]. by eapply IH.
  - intros entries -> Hnone.
    destruct (split "." key) as [|k keys]; [done|]. simpl in Hnone.
    destruct keys as [|k2 keys]; [by eexists|].
    rewrite set_keys_step, Hnone. cbv beta iota zeta.
    rewrite lookup_insert_eq. change (default (Dict ∅) (Some (Dict ∅))) with (Dict ∅).
    destruct (set_keys_empty (k2 :: keys) v) as [inner ->]; [done|]. by eexists.
Qed.

Lemma set_outcome_witness :
  ∃ _config', set (Dict ∅) "matching.weights.skill_match" (Num 0.25)
              = Py.Return _config'.
Proof.
  apply (set_outcome (Dict ∅) "matching.weights.skill_match" (Num 0.25)) with
    (entries := ∅).
  - reflexivity.
  - reflexivity.
Defined.

End ConfigProofs.

Module JobScoreProofs.

Local Open Scope Q_scope.
Import JobScoring Facts.

#[local] Instance Qle_transitive : Transitive Qle := Qle_trans.

(** The attractiveness score never exceeds 1; with a company score and
    salary figures that are not negative it is at least 0.17, the sum of
    the smallest remote and experience terms. *)
Theorem job_attractiveness_bounds l :
  _calculate_job_attractiveness l <= 1
  ∧ ((∀ s, company_score l = Some s → 0 <= s) →
     (∀ lo hi, Job.salary_min (job l) = Some lo →
               Job.salary_max (job l) = Some hi → (0 <= lo + hi)%Z) →
     0.17 <= _calculate_job_attractiveness l).
Proof.
  unfold _calculate_job_attractiveness.
  split; [etrans; [apply Q.le_min_l|done]|].
  intros Hcs Hsal. apply Q.min_glb; [done|].
  set (t1 := match truthy_company_score l with Some _ => _ | None => _ end).
  assert (0 <= t1) as H1.
  { subst t1. unfold truthy_company_score, Py.truthy_float.
    destruct (Job.company (job l)); [|done].
    destruct (company_score l) as [s|] eqn:E; [|done].
    destruct (Qeq_bool s 0); [done|]. specialize (Hcs s eq_refl).
    assert (0 <= s / 5.0) by (apply Qle_shift_div_l; [done|lra]). lra. }
  clearbody t1.
  set (t2 := match Py.truthy_int (Job.salary_min (job l)) with
             | Some _ => _ | None => _ end).
  assert (t1 <= t2) as H2.
  { subst t2. unfold Py.truthy_int.
    destruct (Job.salary_min (job l)) as [lo|] eqn:Elo; [|lra].
    destruct (Job.salary_max (job l)) as [hi|] eqn:Ehi;
      [|destruct lo; lra].
    specialize (Hsal lo hi eq_refl eq_refl).
    assert (0 <= Qmin 1.0 (Py.of_int (lo + hi) / 2 / 200000)).
    { apply Q.min_glb; [done|]. apply Qle_shift_div_l; [done|].
      apply Qle_shift_div_l; [done|]. unfold Py.of_int. rewrite !Qmult_0_l.
      change 0 with (inject_Z 0). by rewrite <- Zle_Qle. }
    destruct lo; [lra| |]; (destruct hi; [lra| |]); lra. }
  clearbody t2.
  set (remote := match Job.remote_option (job l) with Some _ => _ | None => _ end).
  assert (0.5 <= remote) as H3.
  { subst remote. destruct (Job.remote_option (job l)) as [r|]; [|done].
    destruct (remote_scores !! r) as [x|] eqn:E; [|done]. simpl.
    unfold remote_scores in E. apply elem_of_list_to_map_2 in E.
    repeat (apply elem_of_cons in E as [E|E]; [by simplify_eq|]).
    by apply elem_of_nil in E. }
  clearbody remote.
  set (t4 := match benefits l with Some (_ :: _) => _ | _ => _ end).
  assert (t2 + 0.2 * remote <= t4) as H4.
  { subst t4. destruct (benefits l) as [[|b bs]|]; [lra| |lra].
    assert (0 <= Qmin 1.0 (Py.of_len (length (b :: bs)) / 10)).
    { apply Q.min_glb; [done|]. apply Qle_shift_div_l; [done|].
      unfold Py.of_len. rewrite Qmult_0_l. change 0 with (inject_Z 0).
      rewrite <- Zle_Qle. lia. }
    lra. }
  clearbody t4.
  set (e := if from_option _ false _ then _ else _).
  assert (0.7 <= e) as H5.
  { subst e. destruct (from_option _ false _); [done|].
    destruct (from_option _ false _); done. }
  clearbody e. lra.
Qed.

Lemma job_attractiveness_bounds_witness :
  0.17 <= _calculate_job_attractiveness Fixtures.staff_listing.
Proof.
  apply (job_attractiveness_bounds Fixtures.staff_listing).
  - intros s [= <-]. vm_compute. discriminate.
  - intros lo hi _ H. vm_compute in H. discriminate.
Defined.

Lemma days_old_mono now p1 p2 :
  (p1 <= p2)%Z → (days_old now p2 <= days_old now p1)%Z.
Proof.
  intros Hp. unfold days_old, day. apply Z.div_le_mono; lia.
Qed.

(** Freshness lies between 0.2 and 1 and never grows with age: of two
    postings, the one posted earlier is not the fresher; and a posting
    dated after the clock counts as fresh (1.0). *)
Theorem freshness_score_monotone now l1 l2 p1 p2 :
  posted_date l1 = Some p1 → posted_date l2 = Some p2 →
  (0.2 <= _calculate_freshness_score now l1
   ∧ _calculate_freshness_score now l1 <= 1)
  ∧ ((p1 <= p2)%Z →
     _calculate_freshness_score now l1 <= _calculate_freshness_score now l2)
  ∧ ((now <= p1)%Z → _calculate_freshness_score now l1 = 1.0).
Proof.
  intros H1 H2. unfold _calculate_freshness_score. rewrite H1, H2.
  split; [|split].
  - repeat (destruct (_ <=? _)%Z; [by split|]). by split.
  - intros Hp. pose proof (days_old_mono now p1 p2 Hp) as Hd.
    revert Hd. generalize (days_old now p1) (days_old now p2). intros d1 d2 Hd.
    destruct (Z.leb_spec d1 7); simpl.
    { destruct (Z.leb_spec d2 7); simpl; [done|lia]. }
    destruct (Z.leb_spec d2 7); simpl; [by repeat destruct (_ <=? _)%Z|].
    destruct (Z.leb_spec d1 30); simpl.
    { destruct (Z.leb_spec d2 30); simpl; [done|lia]. }
    destruct (Z.leb_spec d2 30); simpl; [by repeat destruct (_ <=? _)%Z|].
    destruct (Z.leb_spec d1 60); simpl.
    { destruct (Z.leb_spec d2 60); simpl; [done|lia]. }
    destruct (Z.leb_spec d2 60); simpl; [by repeat destruct (_ <=? _)%Z|].
    destruct (Z.leb_spec d1 90); simpl.
    { destruct (Z.leb_spec d2 90); simpl; [done|lia]. }
    by destruct (Z.leb_spec d2 90).
  - intros Hn. assert ((days_old now p1 <=? 7)%Z = true) as ->; [|done].
    apply Z.leb_le. unfold days_old, day.
    assert ((now - p1) `div` 86400000000 <= 0)%Z; [|lia].
    apply Z.div_le_upper_bound; lia.
Qed.

Lemma freshness_score_monotone_witness :
  _calculate_freshness_score 0 Fixtures.staff_listing = 1.0.
Proof.
  destruct (freshness_score_monotone 0 Fixtures.staff_listing
              Fixtures.staff_listing 0 0 eq_refl eq_refl) as (_ & _ & Hfuture).
  apply Hfuture. lia.
Defined.

(** Without a salary floor above 100000 and without a company score above
    3.5 a posting has at most three competition points, so its level is
    never high. *)
Theorem competition_not_high l :
  (∀ lo, Job.salary_min (job l) = Some lo → (lo <= 100000)%Z) →
  (∀ s, truthy_company_score l = Some s → s <= 3.5) →
  (competition_points l <= 3)%Z
  ∧ _estimate_competition_level l ≠ "high".
Proof.
  intros Hsal Hcs.
  assert (competition_points l <= 3)%Z as Hpts.
  { unfold competition_points.
    set (p1 := match Py.truthy_int (Job.salary_min (job l)) with
               | Some _ => _ | None => _ end).
    assert (p1 = 0%Z) as ->.
    { subst p1. unfold Py.truthy_int.
      destruct (Job.salary_min (job l)) as [lo|]; [|done].
      specialize (Hsal lo eq_refl).
      assert ((150000 <? lo)%Z = false) as E1 by lia.
      assert ((100000 <? lo)%Z = false) as E2 by lia.
      destruct lo; [done|by rewrite E1, E2..]. }
    set (p2 := if from_option _ false _ then _ else _).
    assert (p2 <= 2)%Z as H2.
    { subst p2. destruct (from_option _ false _); [lia|].
      destruct (bool_decide _); lia. }
    clearbody p2.
    set (p3 := match truthy_company_score l with Some _ => _ | None => _ end).
    assert (p3 = p2) as ->.
    { subst p3. destruct (truthy_company_score l) as [s|]; [|done].
      specialize (Hcs s eq_refl).
      assert (Py.gt s 4.0 = false) as -> by (apply SalaryProofs.gt_false; lra).
      by assert (Py.gt s 3.5 = false) as -> by (by apply SalaryProofs.gt_false). }
    destruct (bool_decide _); lia. }
  split; [done|]. unfold _estimate_competition_level.
  assert ((5 <=? competition_points l)%Z = false) as -> by lia.
  by destruct (3 <=? competition_points l)%Z.
Qed.

Lemma competition_not_high_witness :
  _estimate_competition_level Fixtures.entry_listing ≠ "high".
Proof.
  apply (competition_not_high Fixtures.entry_listing).
  - intros lo H. vm_compute in H. discriminate.
  - intros s H. vm_compute in H. discriminate.
Defined.

Lemma rescore_active now l :
  active l →
  job_score_step now l
  = {| job := job l;
       company_score := company_score l;
       posted_date := posted_date l;
       benefits := benefits l;
       job_score := Some (_calculate_job_attractiveness l);
       freshness_score := Some (_calculate_freshness_score now l);
       competition_level := Some (_estimate_competition_level l) |}.
Proof.
  intros Ha. unfold job_score_step. by rewrite bool_decide_eq_true_2.
Qed.

(** The three scores read none of the columns that are written. *)
Lemma job_attractiveness_ext l l' :
  job l' = job l → company_score l' = company_score l →
  benefits l' = benefits l →
  _calculate_job_attractiveness l' = _calculate_job_attractiveness l.
Proof.
  intros Hj Hc Hb.
  unfold _calculate_job_attractiveness, truthy_company_score.
  by rewrite Hj, Hc, Hb.
Qed.

Lemma freshness_score_ext now l l' :
  posted_date l' = posted_date l →
  _calculate_freshness_score now l' = _calculate_freshness_score now l.
Proof. intros Hp. unfold _calculate_freshness_score. by rewrite Hp. Qed.

Lemma competition_level_ext l l' :
  job l' = job l → company_score l' = company_score l →
  _estimate_competition_level l' = _estimate_competition_level l.
Proof.
  intros Hj Hc.
  unfold _estimate_competition_level, competition_points, truthy_company_score.
  by rewrite Hj, Hc.
Qed.

Lemma job_score_step_columns now l :
  job (job_score_step now l) = job l
  ∧ company_score (job_score_step now l) = company_score l
  ∧ posted_date (job_score_step now l) = posted_date l
  ∧ benefits (job_score_step now l) = benefits l.
Proof. unfold job_score_step. by case_bool_decide. Qed.

Lemma job_score_step_ext now l l' :
  job l' = job l → company_score l' = company_score l →
  posted_date l' = posted_date l → benefits l' = benefits l →
  active l →
  job_score_step now l' = job_score_step now l.
Proof.
  intros Hj Hc Hp Hb Ha.
  assert (active l') as Ha' by (unfold active; by rewrite Hj).
  rewrite (rescore_active now l Ha), (rescore_active now l' Ha').
  rewrite (job_attractiveness_ext l l' Hj Hc Hb).
  rewrite (freshness_score_ext now l l' Hp).
  rewrite (competition_level_ext l l' Hj Hc).
  by rewrite Hj, Hc, Hp, Hb.
Qed.

Lemma job_score_step_twice now l :
  job_score_step now (job_score_step now l) = job_score_step now l.
Proof.
  destruct (job_score_step_columns now l) as (Hj & Hc & Hp & Hb).
  destruct (decide (active l)) as [Ha|Ha].
  - by apply job_score_step_ext.
  - assert (job_score_step now l = l) as Hl.
    { unfold job_score_step. by rewrite bool_decide_eq_false_2. }
    rewrite Hl. exact Hl.
Qed.

(** [calculate_job_scores] keeps every row in its place, leaves rows that
    are not active untouched, and writes only the three score columns of
    the active ones: the attractiveness, the freshness at the clock of the
    call and the competition level, each computed from the row as it was.
    A second pass at the same clock changes nothing. *)
Theorem calculate_job_scores_effect now jobs :
  length (calculate_job_scores now jobs) = length jobs
  ∧ (∀ i l, jobs !! i = Some l →
       ∃ l', calculate_job_scores now jobs !! i = Some l'
             ∧ job l' = job l ∧ company_score l' = company_score l
             ∧ posted_date l' = posted_date l ∧ benefits l' = benefits l
             ∧ (¬ active l → l' = l)
             ∧ (active l →
                job_score l' = Some (_calculate_job_attractiveness l)
                ∧ freshness_score l' = Some (_calculate_freshness_score now l)
                ∧ competition_level l' = Some (_estimate_competition_level l)))
  ∧ calculate_job_scores now (calculate_job_scores now jobs)
    = calculate_job_scores now jobs.
Proof.
  unfold calculate_job_scores. split; [by rewrite length_fmap|]. split.
  - intros i l Hl. rewrite list_lookup_fmap, Hl. simpl. eexists.
    split; [reflexivity|]. unfold job_score_step.
    case_bool_decide as Ha; simpl; naive_solver.
  - rewrite <- list_fmap_compose. apply list_fmap_ext. intros i l _.
    apply job_score_step_twice.
Qed.

Lemma calculate_job_scores_effect_witness :
  ∃ l', calculate_job_scores 0 [Fixtures.staff_listing; Fixtures.entry_listing]
        !! 0%nat = Some l'
        ∧ freshness_score l'
          = Some (_calculate_freshness_score 0 Fixtures.staff_listing)
        ∧ competition_level l' = Some "high".
Proof.
  destruct (calculate_job_scores_effect 0
              [Fixtures.staff_listing; Fixtures.entry_listing])
    as (_ & Hat & _).
  destruct (Hat 0%nat Fixtures.staff_listing eq_refl)
    as (l' & Hl' & _ & _ & _ & _ & _ & Hactive).
  exists l'. split; [exact Hl'|].
  destruct Hactive as (_ & Hf & ->); [reflexivity|].
  split; [exact Hf|reflexivity].
Defined.

End JobScoreProofs.

Module MatcherProofs.

Import Matcher FaissStore Props Facts.

Lemma job_key_inj j1 j2 : job_key j1 = job_key j2 → Job.id j1 = Job.id j2.
Proof.
  unfold job_key. intros H. apply (inj pretty).
  by apply (inj (String.append "job:")) in H.
Qed.

Lemma job_keys_nodup jobs :
  NoDup (Job.id <$> jobs) → NoDup (job_key <$> jobs).
Proof.
  induction jobs as [|j jobs IH]; [constructor|].
  rewrite !fmap_cons, !NoDup_cons. intros [Hnotin Hnd].
  split; [|by apply IH]. intros Hin.
  apply list_elem_of_fmap in Hin as (j' & Hkey & Hj'). apply Hnotin.
  apply job_key_inj in Hkey. rewrite Hkey. by apply list_elem_of_fmap_2.
Qed.

(** A run of [embed_and_store_jobs] that returns appends one id per row of
    the job table, active or not, in table order; ids of different jobs
    differ; and a second run appends the same ids once more, so that every
    job is then stored twice. *)
Theorem embed_and_store_jobs_ids encode vs fs jobs vs1 fs1 :
  embed_and_store_jobs encode vs fs jobs = Py.Return (vs1, fs1) →
  ids vs1 = ids vs ++ (job_key <$> jobs)
  ∧ (NoDup (Job.id <$> jobs) → NoDup (job_key <$> jobs))
  ∧ (∀ vs2 fs2,
       embed_and_store_jobs encode vs1 fs1 jobs = Py.Return (vs2, fs2) →
       ids vs2 = ids vs ++ (job_key <$> jobs) ++ (job_key <$> jobs)).
Proof.
  assert (∀ store files store' files',
            embed_and_store_jobs encode store files jobs
            = Py.Return (store', files') →
            ids store' = ids store ++ (job_key <$> jobs)) as Hrun.
  { intros store files store' files'. unfold embed_and_store_jobs.
    destruct jobs as [|j jobs].
    - intros [= <- <-]. by rewrite app_nil_r.
    - rewrite fmap_cons.
      destruct (encode _) as [vecs|e]; [|done]. simpl.
      intros Hadd. by apply StoreProofs.add_grows in Hadd as (_ & ? & _). }
  intros H1. split; [by eapply Hrun|]. split; [apply job_keys_nodup|].
  intros vs2 fs2 H2. apply Hrun in H1, H2. by rewrite H2, H1, (assoc_L (++)).
Qed.

Lemma embed_and_store_jobs_ids_witness :
  ∃ vs1 fs1,
    embed_and_store_jobs Fixtures.flat_encoder (fresh 2 "index" "ids") ∅
      [Sample.backend_job; Sample.entry_job]
    = Py.Return (vs1, fs1)
    ∧ ids vs1 = ["job:7"; "job:8"].
Proof.
  eexists _, _. split; [reflexivity|].
  destruct (embed_and_store_jobs_ids Fixtures.flat_encoder
              (fresh 2 "index" "ids") ∅ [Sample.backend_job; Sample.entry_job]
              _ _ eq_refl) as (Hids & _).
  rewrite Hids. reflexivity.
Defined.

End MatcherProofs.

Module FurtherWitnesses.

Local Open Scope Q_scope.
Import EnhancedJobMatcher Props Facts.

Lemma run_one_row_per_job_witness :
  count_rows 1 7
    (DB.matches
       (match_user_to_jobs Sample.unit_norm Sample.default_matcher 1 50
          Fixtures.shared_db).2)
  = 1%nat.
Proof.
  assert (NoDup (Job.id <$> DB.jobs Fixtures.shared_db)) as Hnd.
  { apply (NoDup_cons_2 7%Z [10%Z]); [|apply NoDup_singleton].
    intros H. apply list_elem_of_singleton in H. discriminate. }
  destruct (PipelineProofs.run_one_row_per_job Sample.unit_norm
              Sample.default_matcher 1 50 Fixtures.shared_db Sample.alice
              _ _ Hnd eq_refl eq_refl) as [_ Hcount].
  rewrite Hcount. reflexivity.
Defined.

Lemma experience_match_nonzero_years_witness :
  _calculate_experience_match Sample.alice Sample.backend_job = 1.0.
Proof.
  apply (ExperienceProofs.experience_match_nonzero_years Sample.alice
           Sample.backend_job 5%Z "senior" 5%Z 10%Z).
  - reflexivity.
  - discriminate.
  - reflexivity.
  - reflexivity.
  - lia.
Defined.

End FurtherWitnesses.
